(** * BatchJpegDownloader: a shallow embedding of [batchjpegdownloader.py]

    The Python 3 semantics of the script are modelled: [IOError] is the same
    exception class as [OSError].  Characters are code points below 256
    (Rocq's [ascii]).  The file system is a finite map from paths to entries;
    the network and the optional [validators] package are parameters of the
    development, as they are outside the repository. *)

From Stdlib Require Import Ascii String.
From stdpp Require Import base gmap strings list.

Local Open Scope list_scope.
Local Set Warnings "-register-all".
#[local] Arguments String.append : simpl nomatch.
#[local] Arguments Ascii.eqb : simpl never.

(* ------------------------------------------------------------------ *)
(** ** Python string helpers *)

(** Characters for which Python's [str.isspace] holds (code points < 256). *)
Definition is_py_space (c : ascii) : bool :=
  let n := nat_of_ascii c in
  ((9 <=? n) && (n <=? 13)) || ((28 <=? n) && (n <=? 32)) ||
  (n =? 133) || (n =? 160).

Fixpoint lstrip (s : string) : string :=
  match s with
  | EmptyString => EmptyString
  | String c r => if is_py_space c then lstrip r else s
  end.

Fixpoint rstrip (s : string) : string :=
  match s with
  | EmptyString => EmptyString
  | String c r =>
      match rstrip r with
      | EmptyString => if is_py_space c then EmptyString else String c EmptyString
      | r' => String c r'
      end
  end.

(** [str.strip()] *)
Definition py_strip (s : string) : string := rstrip (lstrip s).

Fixpoint contains_char (c : ascii) (s : string) : bool :=
  match s with
  | EmptyString => false
  | String d r => Ascii.eqb c d || contains_char c r
  end.

Definition hex_digit (n : nat) : ascii :=
  if n <? 10 then ascii_of_nat (48 + n) else ascii_of_nat (87 + n).

(** Body of [repr] of a [str] quoted with [q]. *)
Fixpoint repr_body (q : ascii) (s : string) : string :=
  match s with
  | EmptyString => EmptyString
  | String c r =>
      let n := nat_of_ascii c in
      let esc :=
        if Ascii.eqb c "\" then "\\"%string
        else if Ascii.eqb c q then String "\" (String q EmptyString)
        else if n =? 10 then "\n"%string
        else if n =? 13 then "\r"%string
        else if n =? 9 then "\t"%string
        else if (n <? 32) || ((127 <=? n) && (n <=? 160)) || (n =? 173) then
          String "\" (String "x" (String (hex_digit (n / 16))
                                   (String (hex_digit (n mod 16)) EmptyString)))
        else String c EmptyString in
      (esc ++ repr_body q r)%string
  end.

(** [repr] of a [str]: single quotes, unless the string contains a single
    quote and no double quote. *)
Definition py_repr (s : string) : string :=
  let q := if contains_char "'" s && negb (contains_char "034"%char s)
           then "034"%char else "'"%char in
  String q (repr_body q s ++ String q EmptyString)%string.

Fixpoint ends_with_slash (s : string) : bool :=
  match s with
  | EmptyString => false
  | String c EmptyString => Ascii.eqb c "/"
  | String _ r => ends_with_slash r
  end.

Definition starts_with_slash (s : string) : bool :=
  match s with
  | String c _ => Ascii.eqb c "/"
  | EmptyString => false
  end.

(** [url.rsplit('/', 1)[-1]]: the text after the last ['/'], the whole
    string when it contains none. *)
Fixpoint rsplit_last_aux (acc s : string) : string :=
  match s with
  | EmptyString => acc
  | String c r =>
      if Ascii.eqb c "/" then rsplit_last_aux EmptyString r
      else rsplit_last_aux (acc ++ String c EmptyString)%string r
  end.

Definition rsplit_last (s : string) : string := rsplit_last_aux EmptyString s.

(** [posixpath.join(a, b)] for two components. *)
Definition os_path_join (a b : string) : string :=
  if starts_with_slash b then b
  else if String.eqb a "" || ends_with_slash a then (a ++ b)%string
  else (a ++ "/" ++ b)%string.

(** [str.rstrip('/')] *)
Fixpoint rstrip_slash (s : string) : string :=
  match s with
  | EmptyString => EmptyString
  | String c r =>
      match rstrip_slash r with
      | EmptyString => if Ascii.eqb c "/" then EmptyString else String c EmptyString
      | r' => String c r'
      end
  end.

(** [posixpath.dirname] *)
Definition os_path_dirname (p : string) : string :=
  let i := String.length p - String.length (rsplit_last p) in
  let head := String.substring 0 i p in
  match rstrip_slash head with
  | EmptyString => head
  | h => h
  end.

(** The path a file system call resolves: trailing slashes removed
    (a path made of slashes only is kept). *)
Definition norm_path (p : string) : string :=
  match rstrip_slash p with
  | EmptyString => p
  | h => h
  end.

(* ------------------------------------------------------------------ *)
(** ** [fnmatch.fnmatch] on POSIX

    [os.path.normcase] is the identity on POSIX, so [fnmatch] is
    [fnmatchcase]: the pattern is translated ([fnmatch.translate]) into a
    regular expression that must match the whole name.  [*] matches any
    text, [?] one character, [[...]] a character class ([!] negates it, a
    leading [\]] is literal, [x-y] is a range), an unclosed [[] is literal,
    everything else is literal. *)

Inductive class_item := CSingle (c : ascii) | CRange (lo hi : ascii).

Inductive glob_tok :=
| GStar
| GAny
| GClass (negated : bool) (items : list class_item)
| GLit (c : ascii).

Fixpoint class_items (s : list ascii) : list class_item :=
  match s with
  | x :: "-"%char :: y :: r => CRange x y :: class_items r
  | x :: r => CSingle x :: class_items r
  | [] => []
  end.

Fixpoint scan_to_bracket (acc s : list ascii) : option (list ascii * list ascii) :=
  match s with
  | [] => None
  | c :: r => if Ascii.eqb c "]" then Some (rev acc, r) else scan_to_bracket (c :: acc) r
  end.

(** The text after [[]: [Some (stuff, rest)] when the class is closed. *)
Definition scan_class (s : list ascii) : option (list ascii * list ascii) :=
  match s with
  | "!"%char :: "]"%char :: r => scan_to_bracket ["]"%char; "!"%char] r
  | "!"%char :: r => scan_to_bracket ["!"%char] r
  | "]"%char :: r => scan_to_bracket ["]"%char] r
  | _ => scan_to_bracket [] s
  end.

Definition class_tok (stuff : list ascii) : glob_tok :=
  match stuff with
  | "!"%char :: r => GClass true (class_items r)
  | _ => GClass false (class_items stuff)
  end.

Fixpoint glob_tokens_fuel (fuel : nat) (p : list ascii) : list glob_tok :=
  match fuel with
  | O => []
  | S fuel' =>
      match p with
      | [] => []
      | c :: r =>
          if Ascii.eqb c "*" then GStar :: glob_tokens_fuel fuel' r
          else if Ascii.eqb c "?" then GAny :: glob_tokens_fuel fuel' r
          else if Ascii.eqb c "[" then
            match scan_class r with
            | Some (stuff, rest) => class_tok stuff :: glob_tokens_fuel fuel' rest
            | None => GLit c :: glob_tokens_fuel fuel' r
            end
          else GLit c :: glob_tokens_fuel fuel' r
      end
  end.

(** [fnmatch.translate], as a token list (each step consumes one character
    or more, so the length of the pattern is enough fuel). *)
Definition glob_tokens (pat : string) : list glob_tok :=
  let p := list_ascii_of_string pat in glob_tokens_fuel (length p) p.

Definition class_item_ok (c : ascii) (it : class_item) : bool :=
  match it with
  | CSingle x => Ascii.eqb c x
  | CRange lo hi => (nat_of_ascii lo <=? nat_of_ascii c) && (nat_of_ascii c <=? nat_of_ascii hi)
  end.

Definition tok_ok (t : glob_tok) (c : ascii) : bool :=
  match t with
  | GStar | GAny => true
  | GClass neg items => xorb neg (existsb (class_item_ok c) items)
  | GLit x => Ascii.eqb c x
  end.

Fixpoint glob_match (ts : list glob_tok) (s : list ascii) : bool :=
  match ts with
  | [] => match s with [] => true | _ => false end
  | GStar :: ts' =>
      (fix star (s : list ascii) : bool :=
         glob_match ts' s || match s with [] => false | _ :: s' => star s' end) s
  | t :: ts' =>
      match s with
      | [] => false
      | c :: s' => tok_ok t c && glob_match ts' s'
      end
  end.

(** [fnmatch.fnmatch(name, pat)] *)
Definition fnmatch (name pat : string) : bool :=
  glob_match (glob_tokens pat) (list_ascii_of_string name).

Example fnmatch_jpg : fnmatch "https://h/a.jpg" "*.jpg" = true.
Proof. reflexivity. Qed.
Example fnmatch_png : fnmatch "https://h/a.png" "*.jpg" = false.
Proof. reflexivity. Qed.
Example fnmatch_class : fnmatch "b7.jpg" "[a-c][!x]?jpg" = true.
Proof. reflexivity. Qed.
Example fnmatch_unclosed : fnmatch "[a" "[a" = true.
Proof. reflexivity. Qed.
Example fnmatch_plain : fnmatch "x.jpg" "jpg" = false.
Proof. reflexivity. Qed.

(* ------------------------------------------------------------------ *)
(** ** File system, exceptions and the I/O monad *)

Inductive entry := File (content : string) | Dir.

(** Python 3 exceptions raised along the modelled paths ([IOError] is
    [OSError]). *)
Inductive exn :=
| TypeError (msg : string)
| ValueError (msg : string)
| OSError (msg : string).

Definition is_oserror (e : exn) : bool :=
  match e with OSError _ => true | _ => false end.

(** The process state: the file system, what was written to stdout (one
    chunk per [print] or [stdout.write], oldest first), the URLs handed to the
    network, and the operator input not yet read from the terminal. *)
Record state := mkState {
  st_fs : gmap string entry;
  st_out : list string;
  st_requests : list string;
  st_stdin : list string
}.

Inductive res (A : Type) := Ok (a : A) | Exc (e : exn).
Arguments Ok {A} a.
Arguments Exc {A} e.

(** Python statements: exceptions propagate, effects already done stay. *)
Definition M (A : Type) := state -> res A * state.

Definition ret {A} (a : A) : M A := fun s => (Ok a, s).
Definition throw {A} (e : exn) : M A := fun s => (Exc e, s).
Definition bind {A B} (m : M A) (k : A -> M B) : M B :=
  fun s => match m s with
           | (Ok a, s') => k a s'
           | (Exc e, s') => (Exc e, s')
           end.

#[global] Instance M_ret : MRet M := @ret.
#[global] Instance M_bind : MBind M := fun A B k m => bind m k.

(** [try: m except E as e: h(e)] where [sel] recognises the class [E]. *)
Definition try_except {A} (m : M A) (sel : exn -> bool) (h : exn -> M A) : M A :=
  fun s => match m s with
           | (Exc e, s') => if sel e then h e s' else (Exc e, s')
           | r => r
           end.

Definition get_fs : M (gmap string entry) := fun s => (Ok (st_fs s), s).
Definition set_fs (f : gmap string entry) : M unit :=
  fun s => (Ok tt, mkState f (st_out s) (st_requests s) (st_stdin s)).

(** [stdout.write(t)] *)
Definition write_out (t : string) : M unit :=
  fun s => (Ok tt, mkState (st_fs s) (st_out s ++ [t]) (st_requests s) (st_stdin s)).

Definition newline : string := String "010" EmptyString.

(** [print(t)] *)
Definition print (t : string) : M unit := write_out (t ++ newline)%string.

Definition log_request (url : string) : M unit :=
  fun s => (Ok tt, mkState (st_fs s) (st_out s) (st_requests s ++ [url]) (st_stdin s)).

(** Path resolution: a path with a trailing slash only resolves to a
    directory. *)
Definition fs_lookup (fs : gmap string entry) (p : string) : option entry :=
  match fs !! norm_path p with
  | Some (File c) => if ends_with_slash p then None else Some (File c)
  | o => o
  end.

Definition isdir (fs : gmap string entry) (p : string) : bool :=
  match fs_lookup fs p with Some Dir => true | _ => false end.

Definition isfile (fs : gmap string entry) (p : string) : bool :=
  match fs_lookup fs p with Some (File _) => true | _ => false end.

(** [os.path.isdir] *)
Definition os_path_isdir (p : string) : M bool := f ← get_fs; ret (isdir f p).

(** [os.path.isfile] *)
Definition os_path_isfile (p : string) : M bool := f ← get_fs; ret (isfile f p).

(** [os.mkdir(p)] *)
Definition os_mkdir (p : string) : M unit :=
  f ← get_fs;
  if String.eqb p "" then throw (OSError "No such file or directory")
  else match f !! norm_path p with
  | Some _ => throw (OSError "File exists")
  | None =>
      let d := os_path_dirname (norm_path p) in
      if negb (String.eqb d "") && negb (isdir f d)
      then throw (OSError "No such file or directory")
      else set_fs (<[norm_path p := Dir]> f)
  end.

(** [open(p, 'wb')] followed by writing [body] and closing. *)
Definition write_file (p body : string) : M unit :=
  f ← get_fs;
  if String.eqb p "" then throw (OSError "No such file or directory")
  else if ends_with_slash p || isdir f p then throw (OSError "Is a directory")
  else
    let d := os_path_dirname p in
    if negb (String.eqb d "") && negb (isdir f d)
    then throw (OSError "No such file or directory")
    else set_fs (<[norm_path p := File body]> f).

(** Lines of a file opened in text mode: universal newlines turn ["\r\n"]
    and ["\r"] into ["\n"]; every line keeps its terminator. *)
Fixpoint py_lines_aux (cur : string) (s : list ascii) : list string :=
  match s with
  | [] => match cur with EmptyString => [] | _ => [cur] end
  | "013"%char :: "010"%char :: r | "013"%char :: r | "010"%char :: r =>
      (cur ++ String "010" EmptyString)%string :: py_lines_aux EmptyString r
  | c :: r => py_lines_aux (cur ++ String c EmptyString)%string r
  end.

Definition py_lines (content : string) : list string :=
  py_lines_aux EmptyString (list_ascii_of_string content).

(** [open(p, 'r')] and reading its lines. *)
Definition open_read (p : string) : M (list string) :=
  f ← get_fs;
  match fs_lookup f p with
  | Some (File c) => ret (py_lines c)
  | Some Dir => throw (OSError "Is a directory")
  | None => throw (OSError "No such file or directory")
  end.

(** *** Reading a text file lazily

    [for line in list_file] calls [TextIOWrapper.readline] once per line
    (CPython, [_pyio] and [_io] alike): the descriptor reads chunks of
    [_CHUNK_SIZE] bytes at its offset, from whatever the file holds at that
    moment, and [IncrementalNewlineDecoder] translates the newlines, holding
    back a final ["\r"] until the next chunk shows whether ["\n"] follows.
    The file's bytes are taken as characters, as everywhere in this model. *)

(** [TextIOWrapper._CHUNK_SIZE] *)
Definition CHUNK_SIZE : nat := 8192.

(** [output.replace("\r\n", "\n")] *)
Fixpoint replace_crlf (s : list ascii) : list ascii :=
  match s with
  | a :: ((b :: r) as t) =>
      if Ascii.eqb a "013" && Ascii.eqb b "010" then "010"%char :: replace_crlf r
      else a :: replace_crlf t
  | _ => s
  end.

(** [output.replace("\r", "\n")] *)
Definition replace_cr (s : list ascii) : list ascii :=
  map (fun c => if Ascii.eqb c "013" then "010"%char else c) s.

(** The translation step of [IncrementalNewlineDecoder.decode]. *)
Definition translate_newlines (s : list ascii) : list ascii :=
  replace_cr (replace_crlf s).

(** [output.endswith("\r")] *)
Definition ends_with_cr (s : list ascii) : bool :=
  match last s with Some c => Ascii.eqb c "013" | None => false end.

(** [IncrementalNewlineDecoder.decode(input, final)] with [translate] on:
    the decoded text and the new [pendingcr]. *)
Definition newline_decode (pendingcr : bool) (input : list ascii) (final : bool)
    : list ascii * bool :=
  let nonempty := match input with [] => false | _ => true end in
  let output := if pendingcr && (nonempty || final) then "013"%char :: input else input in
  let pendingcr := pendingcr && negb (nonempty || final) in
  if ends_with_cr output && negb final then (translate_newlines (removelast output), true)
  else (translate_newlines output, pendingcr).

(** [line.find('\n')] *)
Fixpoint find_nl (l : list ascii) : option nat :=
  match l with
  | [] => None
  | c :: r => if Ascii.eqb c "010" then Some 0 else option_map S (find_nl r)
  end.

(** The [while True] loop of [TextIOWrapper.readline] while the file holds
    [c]: [line] is the text taken so far (at first the decoded text left by
    the previous call), [pos] the descriptor's offset and [pcr] the
    decoder's [pendingcr].  The line ends after the first ["\n"]; until one
    is found, [_read_chunk] reads [buffer.read1(_CHUNK_SIZE)] at [pos] and
    decodes it, with [final] set at end of file; at end of file with nothing
    decoded, the text taken so far is the line.  Returns the line, the new
    offset, the decoded text left over and the new [pendingcr].  A round
    that does not end the line reads at least one byte, or is one of the two
    rounds at end of file, so twice the length of [c] plus two rounds
    always suffice ([readline] gives that [fuel]). *)
Fixpoint readline_go (fuel : nat) (c : list ascii) (line : list ascii) (pos : nat) (pcr : bool)
    : list ascii * (nat * list ascii * bool) :=
  match find_nl line with
  | Some i => (firstn (S i) line, (pos, skipn (S i) line, pcr))
  | None =>
      match fuel with
      | 0 => (line, (pos, [], pcr))
      | S fuel =>
          let input := firstn CHUNK_SIZE (skipn pos c) in
          let eof := match input with [] => true | _ => false end in
          let '(decoded, pcr') := newline_decode pcr input eof in
          let pos' := pos + length input in
          if eof && match decoded with [] => true | _ => false end
          then (line, (pos', [], pcr'))
          else readline_go fuel c (line ++ decoded) pos' pcr'
      end
  end.

(** A file object opened with [open(p, 'r')]: the path, the descriptor's
    offset, the decoded text not yet returned, and the decoder's
    [pendingcr]. *)
Record text_reader := mkReader {
  rd_path : string;
  rd_pos : nat;
  rd_decoded : list ascii;
  rd_pendingcr : bool
}.

(** [open(p, 'r')]: fails as [open_read] does; reading starts at offset 0. *)
Definition open_text (p : string) : M text_reader :=
  f ← get_fs;
  match fs_lookup f p with
  | Some (File _) => ret (mkReader p 0 [] false)
  | Some Dir => throw (OSError "Is a directory")
  | None => throw (OSError "No such file or directory")
  end.

(** [readline()]: the bytes are those the path holds now.  The descriptor
    stays on the file it opened, and in the model a file is only ever
    rewritten in place ([open(p, 'wb')] truncates and rewrites the same
    file), never removed or replaced by a directory. *)
Definition readline (rd : text_reader) : M (list ascii * text_reader) :=
  f ← get_fs;
  let c := match fs_lookup f (rd_path rd) with
           | Some (File body) => list_ascii_of_string body
           | _ => []
           end in
  let '(line, (pos, decoded, pcr)) :=
    readline_go (2 * length c + 2) c (rd_decoded rd) (rd_pos rd) (rd_pendingcr rd) in
  ret (line, mkReader (rd_path rd) pos decoded pcr).

(* ------------------------------------------------------------------ *)
(** ** Program objects *)

(** An instance of [ListFileURLGenerator]. *)
Record ListFileURLGenerator := mkGen {
  gen_filename : string;
  gen_pattern : string
}.

(** An instance of [BatchDownloader]. *)
Record BatchDownloader := mkDownloader {
  download_directory : string;
  default_overwrite : bool;
  default_create_directory : bool
}.

(** The Python values passed to [BatchDownloader.download]. *)
Inductive pyval :=
| PyNone
| PyStr (s : string)
| PyList (l : list pyval)
| PyGen (g : ListFileURLGenerator).

Fixpoint py_repr_val (v : pyval) : string :=
  match v with
  | PyNone => "None"
  | PyStr s => py_repr s
  | PyList l =>
      ("[" ++ (fix items (l : list pyval) : string :=
                 match l with
                 | [] => ""
                 | [x] => py_repr_val x
                 | x :: r => py_repr_val x ++ ", " ++ items r
                 end) l ++ "]")%string
  | PyGen _ => "<batchjpegdownloader.ListFileURLGenerator object>"
  end.

(** What a [for] loop over an iterable sees: text printed by the iterator
    between two items, and the items. *)
Inductive step := Emit (t : string) | Yield (v : pyval).

(** Outcome of a transfer by [urlretrieve], decided by the remote side. *)
Inductive net_outcome :=
| Served (body : string)          (** the whole body arrives *)
| Unreachable                     (** [urlopen] fails ([URLError]) *)
| Truncated (partial : string)    (** the transfer stops after [partial] was written *)
| UnknownUrlType.                 (** [urlopen] rejects the URL ([ValueError]) *)

(** Command line values, as [ArgumentParser] provides them. *)
Record cli_args := mkArgs {
  jpeg_list_file : string;
  output_directory : string;
  force_download : bool;
  create_output_directory : bool
}.

(** The body of [ListFileURLGenerator.__iter__] for one line of the file. *)
Definition url_gen_line (pattern line : string) : list step :=
  let url_no_whitespaces := py_strip line in
  if negb (String.eqb url_no_whitespaces "") then
    if fnmatch url_no_whitespaces pattern then [Yield (PyStr url_no_whitespaces)]
    else [Emit ("Warning: Ignoring file " ++ py_repr url_no_whitespaces ++
                ", as it does not appear to be of type " ++ py_repr pattern ++ ".")%string]
  else [].

Definition url_gen_steps (pattern : string) (lines : list string) : list step :=
  flat_map (url_gen_line pattern) lines.

(** [url.rsplit('/', 1)[-1]] joined to the download directory
    (lines 310 and 315 of [BatchDownloader.download]). *)
Definition local_filename (download_dir url : string) : string :=
  os_path_join download_dir (rsplit_last url).

(* ------------------------------------------------------------------ *)
(** ** The program *)

Section Program.

(** The remote side: what fetching each URL yields. *)
Variable net : string -> net_outcome.

(** [validators.url] when the [validators] package can be imported. *)
Variable validators : option (string -> bool).

(** Where [urlretrieve] puts the data: [open(filename, 'wb')] when
    [filename] is true as a [str], otherwise a new
    [tempfile.NamedTemporaryFile(delete=False)], created under a fresh name
    in the temporary directory; the program never learns that name, and the
    model does not track the temporary directory. *)
Definition retrieve_to (filename body : string) : M unit :=
  if String.eqb filename "" then ret tt else write_file filename body.

(** [urlretrieve(url, filename)] of [urllib.request]: [urlopen] first, then
    the target is opened and the data copied. *)
Definition urlretrieve (url filename : string) : M unit :=
  match net url with
  | UnknownUrlType => throw (ValueError ("unknown url type: " ++ py_repr url)%string)
  | Unreachable => log_request url;; throw (OSError "<urlopen error>")
  | Served body => log_request url;; retrieve_to filename body
  | Truncated partial =>
      log_request url;; retrieve_to filename partial;;
      throw (OSError "retrieval incomplete")
  end.

(** The validation loop of [ListFileURLGenerator.__init__]. *)
Fixpoint validate_lines (valid : string -> bool) (filename : string)
    (lines : list string) : M unit :=
  match lines with
  | [] => ret tt
  | url :: rest =>
      let url_no_whitespaces := py_strip url in
      if (0 <? String.length url_no_whitespaces) && negb (valid url_no_whitespaces)
      then throw (ValueError ("Invalid URL: " ++ py_repr url_no_whitespaces ++
                              " in source file " ++ py_repr filename)%string)
      else validate_lines valid filename rest
  end.

(** [ListFileURLGenerator.__init__] *)
Definition ListFileURLGenerator_init (filename pattern : string)
    : M ListFileURLGenerator :=
  try_except
    (lines ← open_read filename;
     match validators with
     | Some valid => validate_lines valid filename lines
     | None =>
         print "Warning: failed to load the validators package.";;
         print "To check URLs for correctness install the module via";;
         print "pip install validators";;
         print ""
     end;;
     ret (mkGen filename pattern))
    is_oserror
    (fun e => print ("Error: " ++ py_repr filename ++ " does not appear to be a valid file.")%string;;
              throw e).

(** [BatchDownloader.create_download_directory] *)
Definition create_download_directory (self : BatchDownloader) : M unit :=
  let d := download_directory self in
  is_dir ← os_path_isdir d;
  if negb is_dir then
    if default_create_directory self then
      try_except (os_mkdir d) is_oserror
        (fun e => is_dir_now ← os_path_isdir d;
                  if negb is_dir_now then throw e else ret tt)
    else throw (ValueError ("Output directory " ++ py_repr d ++ " does not exist.")%string)
  else ret tt.

(** [BatchDownloader.__init__] *)
Definition BatchDownloader_init (download_dir : string)
    (overwrite create : bool) : M BatchDownloader :=
  let self := mkDownloader download_dir overwrite create in
  create_download_directory self;;
  ret self.

(** [BatchDownloader.download_file] *)
Definition download_file (self : BatchDownloader) (url filename : string) : M unit :=
  is_file ← os_path_isfile filename;
  if is_file && negb (default_overwrite self) then
    print ("Skipping already existing file " ++ py_repr filename ++ ".")%string
  else
    write_out ("Downloading " ++ py_repr url ++ " to " ++ py_repr filename ++ "...")%string;;
    try_except (urlretrieve url filename;; print "done.") is_oserror
      (fun e => print "failed.";; throw e).

(** The body of the [for] loop of [BatchDownloader.download]. *)
Fixpoint download_loop (self : BatchDownloader) (urls : pyval)
    (steps : list step) : M unit :=
  match steps with
  | [] => ret tt
  | Emit t :: rest => print t;; download_loop self urls rest
  | Yield (PyStr url) :: rest =>
      download_file self url (local_filename (download_directory self) url);;
      download_loop self urls rest
  | Yield v :: _ =>
      throw (TypeError ("Error: " ++ py_repr_val v ++ " object in " ++
                        py_repr_val urls ++ " is not of type string.")%string)
  end.

(** [for url in urls]: iterating a string yields its characters, a list its
    elements; a [ListFileURLGenerator] runs [__iter__], which opens the list
    file when the loop starts.  Here the list file is read whole at that
    moment, while [__iter__] reads a line each time the loop asks for the
    next URL: [download_lazy] below models that reading, and
    [download_lazy_agrees] shows that the two give the same run unless a
    download writes to the list file itself. *)
Definition for_steps (urls : pyval) : M (list step) :=
  match urls with
  | PyNone => throw (TypeError "'NoneType' object is not iterable")
  | PyStr s => ret (map (fun c => Yield (PyStr (String c EmptyString))) (list_ascii_of_string s))
  | PyList l => ret (map Yield l)
  | PyGen g => lines ← open_read (gen_filename g); ret (url_gen_steps (gen_pattern g) lines)
  end.

Definition py_iterable (v : pyval) : bool :=
  match v with PyNone => false | _ => true end.

(** [BatchDownloader.download] *)
Definition download (self : BatchDownloader) (urls : pyval) : M unit :=
  if negb (py_iterable urls) then
    print ("Error: " ++ py_repr_val urls ++ " object is not iterable.")%string;;
    throw (TypeError "'NoneType' object is not iterable")
  else
    steps ← for_steps urls;
    download_loop self urls steps;;
    print "Done.".

(** [BatchDownloader.download] over a [ListFileURLGenerator], with the list
    file read as [__iter__] reads it: a line is read when the [for] loop asks
    for the next URL, after the downloads of the lines before it.  A
    download that rewrites the list file can make the loop run for ever, so
    [fuel] bounds the number of lines read; the result is [false] when the
    run was cut off there, [true] when the file was read to its end. *)
Fixpoint download_gen_loop (fuel : nat) (self : BatchDownloader) (urls : pyval)
    (pattern : string) (rd : text_reader) : M bool :=
  match fuel with
  | 0 => ret false
  | S fuel =>
      next ← readline rd;
      let (line, rd) := (next : list ascii * text_reader) in
      match line with
      | [] => ret true
      | _ =>
          download_loop self urls (url_gen_line pattern (string_of_list_ascii line));;
          download_gen_loop fuel self urls pattern rd
      end
  end.

(** [BatchDownloader.download] with the generator read lazily; other
    iterables as in [download].  A run cut off by [fuel] stops where it is,
    before ["Done."]. *)
Definition download_lazy (fuel : nat) (self : BatchDownloader) (urls : pyval) : M unit :=
  match urls with
  | PyGen g =>
      list_file ← open_text (gen_filename g);
      finished ← download_gen_loop fuel self urls (gen_pattern g) list_file;
      if (finished : bool) then print "Done." else ret tt
  | _ => download self urls
  end.

(** [main], after the command line has been parsed. *)
Definition main (args : cli_args) : M unit :=
  print "BatchJPEGDownloader, Copyright (c) 2016 Oliver Meister";;
  print "";;
  url_iterator ← ListFileURLGenerator_init (jpeg_list_file args) "*.jpg";
  downloader ← BatchDownloader_init (output_directory args)
                 (force_download args) (create_output_directory args);
  download downloader (PyGen url_iterator).

End Program.

(* ------------------------------------------------------------------ *)
(** ** Reading a run *)

(** The URLs an iterator hands to the [for] loop. *)
Definition step_yields (steps : list step) : list string :=
  flat_map (fun st => match st with Yield (PyStr u) => [u] | _ => [] end) steps.

(** The text an iterator prints between items. *)
Definition step_emits (steps : list step) : list string :=
  flat_map (fun st => match st with Emit t => [t] | _ => [] end) steps.

(** *** Reading the list file lazily *)

(** The text still to come from a reader: its bytes from the offset on,
    behind a held-back ["\r"] when [pendingcr] is set, translated. *)
Definition pending (pcr : bool) (r : list ascii) : list ascii :=
  if pcr then "013"%char :: r else r.

Definition tail_text (pcr : bool) (r : list ascii) : list ascii :=
  translate_newlines (pending pcr r).

(** The first line of a text, through its first ["\n"], and the rest. *)
Fixpoint split_line (s : list ascii) : list ascii * list ascii :=
  match s with
  | [] => ([], [])
  | c :: r =>
      if Ascii.eqb c "010" then ([c], r)
      else let (l, r') := split_line r in (c :: l, r')
  end.

(** The text still to come from [rd] while the file holds [c]. *)
Definition reader_text (c : list ascii) (rd : text_reader) : list ascii :=
  rd_decoded rd ++ tail_text (rd_pendingcr rd) (skipn (rd_pos rd) c).

(** The lines of a translated text, each with its ["\n"] but the last. *)
Fixpoint text_lines_aux (cur t : list ascii) : list (list ascii) :=
  match t with
  | [] => match cur with [] => [] | _ => [cur] end
  | c :: r =>
      if Ascii.eqb c "010" then (cur ++ [c]) :: text_lines_aux [] r
      else text_lines_aux (cur ++ [c]) r
  end.

(** A program that leaves the operator input untouched. *)
Definition keeps_stdin {A} (m : M A) : Prop :=
  forall s, st_stdin (snd (m s)) = st_stdin s.

(** The warning of [ListFileURLGenerator.__iter__] for a rejected line. *)
Definition ignore_warning (url pattern : string) : string :=
  ("Warning: Ignoring file " ++ py_repr url ++
   ", as it does not appear to be of type " ++ py_repr pattern ++ ".")%string.

(** The error [ListFileURLGenerator.__init__] raises for a malformed URL. *)
Definition invalid_url_error (url filename : string) : exn :=
  ValueError ("Invalid URL: " ++ py_repr url ++ " in source file " ++ py_repr filename)%string.

(* ------------------------------------------------------------------ *)
(** ** Concrete configurations used to exercise the statements *)

Module Fixtures.

Definition fs_out : gmap string entry := <["/out" := Dir]> (<["/" := Dir]> ∅).

(** [/out/x.jpg] already exists. *)
Definition fs_out_x : gmap string entry := <["/out/x.jpg" := File "old"]> fs_out.

Definition s_out : state := mkState fs_out [] [] [].

(** An operator ready to answer ["always"] on the terminal. *)
Definition s_out_x : state := mkState fs_out_x [] [] ["always"].

(** Scenario E: the second of three URLs cannot be reached. *)
Definition net_e (u : string) : net_outcome :=
  if String.eqb u "https://b/y.jpg" then Unreachable else Served ("body of " ++ u)%string.

Definition urls_e : list string := ["https://a/x.jpg"; "https://b/y.jpg"; "https://c/z.jpg"].

(** Two URLs with the same final segment; the second transfer breaks off. *)
Definition net_cut (u : string) : net_outcome :=
  if String.eqb u "https://b/x.jpg" then Truncated "part" else Served "full".

Definition urls_cut : list string := ["https://a/x.jpg"; "https://b/x.jpg"].

Definition dl_keep : BatchDownloader := mkDownloader "/out" false false.
Definition dl_force : BatchDownloader := mkDownloader "/out" true false.

(** The states of scenario E after the first URL and after the second. *)
Definition s_e1 : state :=
  snd (download_loop net_e dl_keep (PyList (map PyStr urls_e))
         [Yield (PyStr "https://a/x.jpg")] s_out).

Definition s_e2 : state :=
  snd (download_file net_e dl_keep "https://b/y.jpg" (local_filename "/out" "https://b/y.jpg") s_e1).

(** The same for the two URLs sharing the name [x.jpg]. *)
Definition s_cut1 : state :=
  snd (download_loop net_cut dl_force (PyList (map PyStr urls_cut))
         [Yield (PyStr "https://a/x.jpg")] s_out).

Definition s_cut2 : state :=
  snd (download_file net_cut dl_force "https://b/x.jpg" (local_filename "/out" "https://b/x.jpg") s_cut1).

Definition dl_create : BatchDownloader := mkDownloader "/new" false true.

(** The state after [create_download_directory] made [/new]. *)
Definition s_created : state := snd (create_download_directory dl_create s_out).

(** A list file whose second line is not a URL. *)
Definition list_content : string :=
  ("https://a/x.jpg" ++ newline ++ "not a url" ++ newline ++ "https://c/z.jpg" ++ newline)%string.

Definition fs_list : gmap string entry := <["/list.txt" := File list_content]> fs_out.

Definition s_list : state := mkState fs_list [] [] [].

Definition args_list : cli_args := mkArgs "/list.txt" "/out" false false.

(** A URL check accepting what starts with [https://]. *)
Definition valid_https (u : string) : bool := String.prefix "https://" u.

(** A list file whose lines all pass [valid_https], with a blank line and
    padding. *)
Definition ok_content : string :=
  ("https://a/x.jpg" ++ newline ++ "  " ++ newline ++ " https://c/z.png " ++ newline)%string.

Definition s_ok : state := mkState (<["/list.txt" := File ok_content]> fs_out) [] [] [].

(** A list file with no JPEG in it. *)
Definition png_content : string :=
  ("https://a/x.png" ++ newline ++ newline ++ " b.gif" ++ newline)%string.

Definition s_png : state := mkState (<["/list.txt" := File png_content]> fs_out) [] [] [].

Definition gen_list : ListFileURLGenerator := mkGen "/list.txt" "*.jpg".

(** A directory to create below a parent that does not exist. *)
Definition dl_deep : BatchDownloader := mkDownloader "/a/b" false true.

(** A directory to create where a file already is. *)
Definition dl_onfile : BatchDownloader := mkDownloader "/out/x.jpg" false true.

(** [urlopen] accepts only absolute [https] URLs. *)
Definition net_rel (u : string) : net_outcome :=
  if String.prefix "https://" u then Served "full" else UnknownUrlType.

(** A list file that is not there, with directory creation requested. *)
Definition args_missing : cli_args := mkArgs "/missing.txt" "/new" false true.

(** [-o /out -f] with the list file [/out/x.jpg] in the output directory;
    its one URL serves a longer list. *)
Definition list_in_out : string := ("https://a/x.jpg" ++ newline)%string.

Definition gen_in_out : ListFileURLGenerator := mkGen "/out/x.jpg" "*.jpg".

Definition s_in_out : state := mkState (<["/out/x.jpg" := File list_in_out]> fs_out) [] [] [].

Definition net_list (u : string) : net_outcome :=
  Served ("https://a/x.jpg" ++ newline ++ "https://b/y.jpg" ++ newline)%string.

End Fixtures.

(** Unfolds the monad operations so that a program run reduces. *)
Ltac unfold_M :=
  unfold mbind, M_bind, bind, mret, M_ret, ret, throw, get_fs, set_fs,
    try_except, print, write_out, log_request;
  cbv beta iota zeta.

(* ------------------------------------------------------------------ *)
(** ** Path helpers: lemmas *)

Module PathFacts.

Lemma append_empty_r (s : string) : (s ++ "")%string = s.
Proof. induction s as [|c r IH]; simpl; [reflexivity | now rewrite IH]. Qed.

Lemma append_assoc_str (a b c : string) : (a ++ (b ++ c))%string = ((a ++ b) ++ c)%string.
Proof. induction a as [|x r IH]; simpl; [reflexivity | now rewrite IH]. Qed.

Lemma rsplit_last_aux_slash (s1 s2 acc : string) :
  rsplit_last_aux acc (s1 ++ String "/" s2)%string = rsplit_last_aux "" s2.
Proof.
  revert acc. induction s1 as [|c r IH]; intros acc; simpl.
  - reflexivity.
  - destruct (Ascii.eqb c "/"); apply IH.
Qed.

Lemma rsplit_last_aux_no_slash (f acc : string) :
  contains_char "/" f = false -> rsplit_last_aux acc f = (acc ++ f)%string.
Proof.
  revert acc. induction f as [|c r IH]; intros acc Hf; simpl in *.
  - now rewrite append_empty_r.
  - apply orb_false_iff in Hf as [Hc Hr].
    rewrite Ascii.eqb_sym, Hc, IH by exact Hr.
    now rewrite <- append_assoc_str.
Qed.

Lemma rsplit_last_aux_no_slash_result (s acc : string) :
  contains_char "/" acc = false -> contains_char "/" (rsplit_last_aux acc s) = false.
Proof.
  revert acc. induction s as [|c r IH]; intros acc Hacc; simpl; [exact Hacc|].
  destruct (Ascii.eqb c "/") eqn:Hc; apply IH; [reflexivity|].
  induction acc as [|x y IHy]; simpl in *.
  - now rewrite Ascii.eqb_sym, Hc.
  - apply orb_false_iff in Hacc as [Hx Hy]. now rewrite Hx, IHy.
Qed.

Lemma rsplit_last_no_slash (s : string) : contains_char "/" (rsplit_last s) = false.
Proof. apply rsplit_last_aux_no_slash_result. reflexivity. Qed.

Lemma ends_with_slash_split (s : string) :
  ends_with_slash s = true -> exists d, s = (d ++ "/")%string.
Proof.
  induction s as [|c r IH]; simpl; [discriminate|].
  destruct r as [|c' r'].
  - intros Hc. apply Ascii.eqb_eq in Hc. subst. now exists "".
  - intros H. destruct (IH H) as [d Hd]. exists (String c d). simpl. now rewrite Hd.
Qed.

Lemma ends_with_slash_app_r (x y : string) :
  ends_with_slash y = true -> ends_with_slash (x ++ y) = true.
Proof.
  intros Hy. induction x as [|c r IH]; [exact Hy|].
  change (String c r ++ y)%string with (String c (r ++ y)).
  destruct (r ++ y)%string as [|c' r'] eqn:E.
  - destruct r, y; discriminate.
  - exact IH.
Qed.

Lemma ends_with_slash_snoc (x : string) : ends_with_slash (x ++ "/") = true.
Proof. apply ends_with_slash_app_r. reflexivity. Qed.

Lemma rsplit_last_aux_prefix (s acc : string) :
  exists pre, (acc ++ s)%string = (pre ++ rsplit_last_aux acc s)%string /\
              (pre = ""%string \/ ends_with_slash pre = true).
Proof.
  revert acc. induction s as [|c r IH]; intros acc.
  - exists ""%string. split; [apply append_empty_r | now left].
  - simpl. destruct (Ascii.eqb c "/") eqn:Hc.
    + apply Ascii.eqb_eq in Hc. subst c.
      destruct (IH ""%string) as [pre [Hpre Hends]]. simpl in Hpre.
      exists (acc ++ "/" ++ pre)%string. split.
      * rewrite Hpre at 1. rewrite <- !append_assoc_str. reflexivity.
      * right. destruct Hends as [-> | Hends].
        -- rewrite append_empty_r. apply ends_with_slash_snoc.
        -- rewrite append_assoc_str. now apply ends_with_slash_app_r.
    + destruct (IH (acc ++ String c "")%string) as [pre [Hpre Hends]].
      exists pre. split; [|exact Hends].
      rewrite <- Hpre, <- append_assoc_str. reflexivity.
Qed.

(** [rsplit_last s] is what follows the last ['/'] of [s]. *)
Lemma rsplit_last_suffix (s : string) :
  exists pre, s = (pre ++ rsplit_last s)%string /\
              (pre = ""%string \/ ends_with_slash pre = true).
Proof. apply (rsplit_last_aux_prefix s ""). Qed.

Lemma rsplit_last_aux_trailing (s acc : string) :
  ends_with_slash s = true -> rsplit_last_aux acc s = "".
Proof.
  intros H. destruct (ends_with_slash_split s H) as [d ->].
  now rewrite rsplit_last_aux_slash.
Qed.

Lemma rstrip_slash_snoc (s : string) : rstrip_slash (s ++ "/") = rstrip_slash s.
Proof. induction s as [|c r IH]; simpl; [reflexivity | now rewrite IH]. Qed.

Lemma rstrip_slash_cons (c : ascii) (r : string) :
  rstrip_slash (String c r) =
  match rstrip_slash r with
  | EmptyString => if Ascii.eqb c "/" then EmptyString else String c EmptyString
  | r' => String c r'
  end.
Proof. reflexivity. Qed.

Lemma rstrip_slash_no_trailing (s : string) :
  s <> ""%string -> ends_with_slash s = false -> rstrip_slash s = s.
Proof.
  induction s as [|c r IH]; intros Hne H; [congruence|].
  destruct r as [|c' r'].
  - simpl in *. now rewrite H.
  - rewrite rstrip_slash_cons, IH by (discriminate || exact H). reflexivity.
Qed.

(** The final ['/']-segment of the joined path is the joined name, for a
    name without ['/']. *)
Lemma rsplit_last_join (dir f : string) :
  contains_char "/" f = false ->
  rsplit_last (os_path_join dir f) = f.
Proof.
  intros Hf. unfold os_path_join, rsplit_last.
  assert (Hs : starts_with_slash f = false).
  { destruct f as [|c r]; simpl in *; [reflexivity|].
    apply orb_false_iff in Hf as [Hc _]. now rewrite Ascii.eqb_sym. }
  rewrite Hs.
  destruct (String.eqb dir "") eqn:He; simpl.
  - apply String.eqb_eq in He. subst. simpl. now rewrite rsplit_last_aux_no_slash.
  - destruct (ends_with_slash dir) eqn:Hd.
    + destruct (ends_with_slash_split dir Hd) as [d ->].
      rewrite <- append_assoc_str. simpl.
      rewrite rsplit_last_aux_slash. now rewrite rsplit_last_aux_no_slash.
    + simpl. rewrite rsplit_last_aux_slash. now rewrite rsplit_last_aux_no_slash.
Qed.

End PathFacts.

Lemma download_loop_app (net : string -> net_outcome) (self : BatchDownloader)
    (urls : pyval) (st1 st2 : list step) (s : state) :
  download_loop net self urls (st1 ++ st2) s =
  match download_loop net self urls st1 s with
  | (Ok _, s') => download_loop net self urls st2 s'
  | (Exc e, s') => (Exc e, s')
  end.
Proof.
  revert s. induction st1 as [|[t|v] r IH]; intros s; [reflexivity| |].
  - cbn [app download_loop]. unfold mbind, M_bind, bind.
    destruct (print t s) as [[] s'] eqn:E; [apply IH | discriminate].
  - cbn [app]. destruct v as [| url | l | g]; cbn [download_loop]; try reflexivity.
    unfold mbind, M_bind, bind.
    destruct (download_file net self url _ s) as [[] s'] eqn:E; [apply IH | reflexivity].
Qed.

(* ------------------------------------------------------------------ *)
(** ** Local path resolution in [BatchDownloader.download] *)

(** Claim C3 (counterexample): for the url ['https://host/path/'], which
    has the non-empty segments ['https:'], ['host'] and ['path'], the code
    does not take the final non-empty segment ['path']: the resolved path
    in ['/out'] is ['/out/'], not ['/out/path']. *)
Lemma resolve_trailing_slash_not_last_nonempty :
  local_filename "/out" "https://host/path/" = "/out/"%string /\
  local_filename "/out" "https://host/path/" <> os_path_join "/out" "path".
Proof. split; [reflexivity | vm_compute; discriminate]. Qed.

(** Claim C3 (amended): the local path is [os.path.join] of the download
    directory and the text after the last ['/'] of the url (the whole url
    when it has no ['/'], the empty string when it ends with ['/']); that
    name holds no ['/'], so the final ['/']-segment of the resolved path is
    the final ['/']-segment of the url; ['https://host/path/photo.jpg'] in
    ['/out'] resolves to ['/out/photo.jpg']; an item of the url sequence
    that is not a string ([None], a list, a generator object) makes
    [download] raise [TypeError] when the loop reaches it, after the
    string items before it have been handled. *)
Theorem local_path_resolution (dir url : string) :
  local_filename dir url = os_path_join dir (rsplit_last url) /\
  (exists pre, url = (pre ++ rsplit_last url)%string /\
               (pre = ""%string \/ ends_with_slash pre = true)) /\
  contains_char "/" (rsplit_last url) = false /\
  rsplit_last (local_filename dir url) = rsplit_last url /\
  local_filename "/out" "https://host/path/photo.jpg" = "/out/photo.jpg"%string /\
  (forall net self pre v rest s s1,
     (forall x, v <> PyStr x) ->
     download_loop net self (PyList (map PyStr pre ++ v :: rest))
       (map (fun x => Yield (PyStr x)) pre) s = (Ok tt, s1) ->
     download net self (PyList (map PyStr pre ++ v :: rest)) s =
     (Exc (TypeError ("Error: " ++ py_repr_val v ++ " object in " ++
                      py_repr_val (PyList (map PyStr pre ++ v :: rest)) ++
                      " is not of type string.")), s1)).
Proof.
  split; [reflexivity|].
  split; [apply PathFacts.rsplit_last_suffix|].
  split; [apply PathFacts.rsplit_last_no_slash|].
  split; [apply PathFacts.rsplit_last_join, PathFacts.rsplit_last_no_slash|].
  split; [reflexivity|].
  intros net self pre v rest s s1 Hv Hpre.
  unfold download. cbn [py_iterable negb]. unfold for_steps.
  unfold mbind, M_bind, bind, mret, M_ret, ret. cbv beta iota.
  rewrite map_app, map_map. cbn [map].
  rewrite download_loop_app, Hpre.
  destruct v as [| x | l | g]; [reflexivity | exfalso; exact (Hv x eq_refl) | reflexivity | reflexivity].
Qed.

Lemma local_path_resolution_witness :
  download_loop Fixtures.net_e Fixtures.dl_keep
    (PyList (map PyStr ["https://a/x.jpg"%string] ++ [PyNone]))
    (map (fun x => Yield (PyStr x)) ["https://a/x.jpg"%string]) Fixtures.s_out =
    (Ok tt, Fixtures.s_e1) /\
  download Fixtures.net_e Fixtures.dl_keep
    (PyList (map PyStr ["https://a/x.jpg"%string] ++ [PyNone])) Fixtures.s_out =
  (Exc (TypeError ("Error: " ++ py_repr_val PyNone ++ " object in " ++
                   py_repr_val (PyList (map PyStr ["https://a/x.jpg"%string] ++ [PyNone])) ++
                   " is not of type string.")), Fixtures.s_e1).
Proof.
  assert (H : download_loop Fixtures.net_e Fixtures.dl_keep
                (PyList (map PyStr ["https://a/x.jpg"%string] ++ [PyNone]))
                (map (fun x => Yield (PyStr x)) ["https://a/x.jpg"%string]) Fixtures.s_out =
              (Ok tt, Fixtures.s_e1)) by (vm_compute; reflexivity).
  split; [exact H|].
  destruct (local_path_resolution "/out" "https://host/path/photo.jpg") as (_ & _ & _ & _ & _ & Hn).
  exact (Hn Fixtures.net_e Fixtures.dl_keep ["https://a/x.jpg"%string] PyNone [] Fixtures.s_out
            Fixtures.s_e1 (fun x Hx => ltac:(discriminate Hx)) H).
Defined.

(** Claim C9: for a url ending in ['/'] the derived file name is empty and
    the resolved path is [os.path.join(dir, '')], which names the download
    directory itself (it resolves to the same path as [dir]). *)
Theorem trailing_slash_resolves_to_directory (dir url : string) :
  ends_with_slash url = true ->
  rsplit_last url = ""%string /\
  local_filename dir url = os_path_join dir "" /\
  norm_path (local_filename dir url) = norm_path dir.
Proof.
  intros Hu.
  assert (He : rsplit_last url = ""%string) by now apply PathFacts.rsplit_last_aux_trailing.
  unfold local_filename. rewrite He.
  split; [reflexivity|]. split; [reflexivity|].
  unfold os_path_join. simpl starts_with_slash. cbv iota.
  destruct (String.eqb dir "" || ends_with_slash dir) eqn:Hd.
  - now rewrite PathFacts.append_empty_r.
  - apply orb_false_iff in Hd as [Hd1 Hd2].
    apply String.eqb_neq in Hd1.
    change ("/" ++ "")%string with "/"%string.
    unfold norm_path. rewrite PathFacts.rstrip_slash_snoc.
    rewrite PathFacts.rstrip_slash_no_trailing by assumption.
    destruct dir; [congruence | reflexivity].
Qed.

Lemma trailing_slash_resolves_to_directory_witness :
  ends_with_slash "https://host/path/" = true /\
  rsplit_last "https://host/path/" = ""%string /\
  local_filename "/out" "https://host/path/" = os_path_join "/out" "" /\
  norm_path (local_filename "/out" "https://host/path/") = norm_path "/out".
Proof.
  split; [reflexivity|].
  apply (trailing_slash_resolves_to_directory "/out" "https://host/path/").
  reflexivity.
Defined.

(* ------------------------------------------------------------------ *)
(** ** Existing files and the download directory *)

(** Claim C2: with [default_overwrite] false, a target that already exists
    as a file is skipped: no request, no write, one notice naming it. *)
Theorem download_file_skips_existing (net : string -> net_outcome)
    (self : BatchDownloader) (url filename content : string) (s : state) :
  fs_lookup (st_fs s) filename = Some (File content) ->
  default_overwrite self = false ->
  download_file net self url filename s =
  (Ok tt, mkState (st_fs s)
            (st_out s ++ [("Skipping already existing file " ++ py_repr filename ++ "." ++ newline)%string])
            (st_requests s) (st_stdin s)).
Proof.
  intros Hf Ho. unfold download_file, os_path_isfile, isfile. unfold_M.
  rewrite Hf, Ho. cbn [andb negb]. cbv beta. now rewrite <- !PathFacts.append_assoc_str.
Qed.

Lemma download_file_skips_existing_witness :
  fs_lookup (st_fs Fixtures.s_out_x) "/out/x.jpg" = Some (File "old") /\
  default_overwrite Fixtures.dl_keep = false /\
  download_file Fixtures.net_e Fixtures.dl_keep "https://a/x.jpg" "/out/x.jpg" Fixtures.s_out_x =
  (Ok tt, mkState (st_fs Fixtures.s_out_x)
            (st_out Fixtures.s_out_x ++
             [("Skipping already existing file " ++ py_repr "/out/x.jpg" ++ "." ++ newline)%string])
            (st_requests Fixtures.s_out_x) (st_stdin Fixtures.s_out_x)).
Proof.
  split; [reflexivity|]. split; [reflexivity|].
  apply (download_file_skips_existing Fixtures.net_e Fixtures.dl_keep "https://a/x.jpg"
           "/out/x.jpg" "old" Fixtures.s_out_x); reflexivity.
Defined.

(** Claim C4: with directory creation disallowed, constructing a
    [BatchDownloader] on a path that is not a directory raises a
    [ValueError] naming the path and leaves the state as it was (no file
    written, no request made); nothing sequenced after the constructor
    runs. *)
Theorem BatchDownloader_init_missing_directory (dir : string) (overwrite : bool) (s : state) :
  isdir (st_fs s) dir = false ->
  BatchDownloader_init dir overwrite false s =
    (Exc (ValueError ("Output directory " ++ py_repr dir ++ " does not exist.")), s) /\
  (forall (A : Type) (k : BatchDownloader -> M A),
     (BatchDownloader_init dir overwrite false ≫= k) s =
     (Exc (ValueError ("Output directory " ++ py_repr dir ++ " does not exist.")), s)).
Proof.
  intros Hd.
  assert (H : BatchDownloader_init dir overwrite false s =
    (Exc (ValueError ("Output directory " ++ py_repr dir ++ " does not exist.")), s)).
  { unfold BatchDownloader_init, create_download_directory, os_path_isdir. unfold_M.
    cbn [download_directory default_create_directory]. rewrite Hd. reflexivity. }
  split; [exact H|].
  intros A k. unfold mbind at 1, M_bind at 1, bind at 1. rewrite H. reflexivity.
Qed.

Lemma BatchDownloader_init_missing_directory_witness :
  isdir (st_fs Fixtures.s_out) "/new" = false /\
  BatchDownloader_init "/new" false false Fixtures.s_out =
    (Exc (ValueError ("Output directory " ++ py_repr "/new" ++ " does not exist.")), Fixtures.s_out).
Proof.
  split; [reflexivity|].
  apply (BatchDownloader_init_missing_directory "/new" false Fixtures.s_out). reflexivity.
Defined.

(** [create_download_directory] succeeds without any effect on a path that
    is already a directory. *)
Lemma create_download_directory_existing (self : BatchDownloader) (s : state) :
  isdir (st_fs s) (download_directory self) = true ->
  create_download_directory self s = (Ok tt, s).
Proof.
  intros Hd. unfold create_download_directory, os_path_isdir. unfold_M.
  rewrite Hd. reflexivity.
Qed.

(** Claim C7: with creation allowed, once [create_download_directory] has
    succeeded the path is a directory, and a second call succeeds and
    changes nothing. *)
Theorem create_download_directory_idempotent (self : BatchDownloader) (s s1 : state) :
  default_create_directory self = true ->
  create_download_directory self s = (Ok tt, s1) ->
  isdir (st_fs s1) (download_directory self) = true /\
  create_download_directory self s1 = (Ok tt, s1).
Proof.
  intros Hc Hrun.
  assert (Hdir : isdir (st_fs s1) (download_directory self) = true).
  { revert Hrun. unfold create_download_directory, os_path_isdir, os_mkdir. unfold_M.
    destruct (isdir (st_fs s) (download_directory self)) eqn:Hd; cbn [negb].
    - intros [= <-]. exact Hd.
    - rewrite Hc.
      destruct (String.eqb (download_directory self) "");
        [rewrite Hd; discriminate|].
      destruct (st_fs s !! norm_path (download_directory self));
        [rewrite Hd; discriminate|].
      destruct (_ && _); [rewrite Hd; discriminate|].
      intros [= <-]. unfold isdir, fs_lookup. cbn [st_fs].
      now rewrite lookup_insert_eq. }
  split; [exact Hdir|]. now apply create_download_directory_existing.
Qed.

Lemma create_download_directory_idempotent_witness :
  create_download_directory Fixtures.dl_create Fixtures.s_out = (Ok tt, Fixtures.s_created) /\
  isdir (st_fs Fixtures.s_created) "/new" = true /\
  create_download_directory Fixtures.dl_create Fixtures.s_created = (Ok tt, Fixtures.s_created).
Proof.
  split; [vm_compute; reflexivity|].
  apply (create_download_directory_idempotent Fixtures.dl_create Fixtures.s_out Fixtures.s_created);
    [reflexivity|].
  vm_compute. reflexivity.
Defined.

(* ------------------------------------------------------------------ *)
(** ** The URL filter of [ListFileURLGenerator] *)

Lemma list_filter_sublist {A} (f : A -> bool) (l : list A) : List.filter f l `sublist_of` l.
Proof.
  induction l as [|x r IH]; simpl; [constructor|].
  destruct (f x); [now apply sublist_skip | now apply sublist_cons].
Qed.

(** Claim C5: each line is stripped; a blank result yields nothing and
    prints nothing; a non-blank one is yielded iff it matches the pattern
    with [fnmatch], and otherwise causes exactly one warning naming it and
    the pattern; the yielded URLs keep the order of the lines. *)
Theorem url_filter_lines (pattern : string) (lines : list string) :
  step_yields (url_gen_steps pattern lines) =
    List.filter (fun u => negb (String.eqb u "") && fnmatch u pattern) (map py_strip lines) /\
  step_emits (url_gen_steps pattern lines) =
    map (fun u => ignore_warning u pattern)
      (List.filter (fun u => negb (String.eqb u "") && negb (fnmatch u pattern))
         (map py_strip lines)) /\
  length (url_gen_steps pattern lines) =
    length (List.filter (fun u => negb (String.eqb u "")) (map py_strip lines)) /\
  step_yields (url_gen_steps pattern lines) `sublist_of` map py_strip lines.
Proof.
  assert (Hy : step_yields (url_gen_steps pattern lines) =
    List.filter (fun u => negb (String.eqb u "") && fnmatch u pattern) (map py_strip lines)).
  { induction lines as [|l r IH]; [reflexivity|].
    unfold url_gen_steps, step_yields in *. cbn [flat_map map List.filter].
    rewrite flat_map_app, IH. unfold url_gen_line.
    destruct (String.eqb (py_strip l) "");
      [reflexivity | destruct (fnmatch (py_strip l) pattern); reflexivity]. }
  split; [exact Hy|].
  split.
  { clear Hy. induction lines as [|l r IH]; [reflexivity|].
    unfold url_gen_steps, step_emits in *. cbn [flat_map map List.filter].
    rewrite flat_map_app, IH. unfold url_gen_line.
    destruct (String.eqb (py_strip l) "");
      [reflexivity | destruct (fnmatch (py_strip l) pattern); reflexivity]. }
  split.
  { clear Hy. induction lines as [|l r IH]; [reflexivity|].
    unfold url_gen_steps in *. cbn [flat_map map List.filter].
    rewrite length_app, IH. unfold url_gen_line.
    destruct (String.eqb (py_strip l) "");
      [reflexivity | destruct (fnmatch (py_strip l) pattern); reflexivity]. }
  rewrite Hy. apply list_filter_sublist.
Qed.

(** Spec scenario A, with the pattern ["*.jpg"] of [main]. *)
Example url_filter_scenario_a :
  url_gen_steps "*.jpg" ["a.jpg"; "b.png"; ""; "c.jpg"] =
  [Yield (PyStr "a.jpg"); Emit (ignore_warning "b.png" "*.jpg"); Yield (PyStr "c.jpg")].
Proof. reflexivity. Qed.

(* ------------------------------------------------------------------ *)
(** ** URL validation in [ListFileURLGenerator.__init__] *)

Lemma validate_lines_rejects (valid : string -> bool) (filename : string)
    (lines : list string) :
  (exists l, In l lines /\ py_strip l <> ""%string /\ valid (py_strip l) = false) ->
  exists u, In u (map py_strip lines) /\ u <> ""%string /\ valid u = false /\
    forall s, validate_lines valid filename lines s = (Exc (invalid_url_error u filename), s).
Proof.
  induction lines as [|l r IH]; intros [l0 [Hin [Hne Hv]]]; [contradiction|].
  destruct ((0 <? String.length (py_strip l)) && negb (valid (py_strip l))) eqn:Hbad.
  - apply andb_true_iff in Hbad as [Hlen Hvl]. apply negb_true_iff in Hvl.
    exists (py_strip l). split; [now left|]. split.
    + intros He. rewrite He in Hlen. discriminate.
    + split; [exact Hvl | intros s; cbn [validate_lines]; rewrite Hlen, Hvl; reflexivity].
  - destruct Hin as [-> | Hin].
    + exfalso. destruct (py_strip l0) as [|c t] eqn:E; [congruence|].
      rewrite Hv in Hbad. discriminate.
    + destruct (IH (ex_intro _ l0 (conj Hin (conj Hne Hv)))) as [u [Hu Hrest]].
      exists u. split; [now right|].
      destruct Hrest as [Hu1 [Hu2 Hrun]]. split; [exact Hu1|]. split; [exact Hu2|].
      intros s. cbn [validate_lines]. rewrite Hbad. apply Hrun.
Qed.

Lemma generator_init_rejects (valid : string -> bool) (filename pattern content : string)
    (s : state) (u : string) :
  fs_lookup (st_fs s) filename = Some (File content) ->
  validate_lines valid filename (py_lines content) s = (Exc (invalid_url_error u filename), s) ->
  ListFileURLGenerator_init (Some valid) filename pattern s = (Exc (invalid_url_error u filename), s).
Proof.
  intros Hf Hv. unfold ListFileURLGenerator_init, open_read. unfold_M.
  rewrite Hf. cbv beta iota. rewrite Hv. reflexivity.
Qed.

(** Claim C6: with [validators] available, a list file holding a non-blank
    line that is not a URL makes the generator's constructor raise a
    [ValueError] naming that line and the file; [main] stops there, before
    the downloader exists: no file is written and no URL is requested. *)
Theorem invalid_url_aborts_before_download (net : string -> net_outcome)
    (valid : string -> bool) (args : cli_args) (content : string) (s : state) :
  fs_lookup (st_fs s) (jpeg_list_file args) = Some (File content) ->
  (exists l, In l (py_lines content) /\ py_strip l <> ""%string /\ valid (py_strip l) = false) ->
  exists u, In u (map py_strip (py_lines content)) /\ u <> ""%string /\ valid u = false /\
    (forall pattern,
       ListFileURLGenerator_init (Some valid) (jpeg_list_file args) pattern s =
       (Exc (invalid_url_error u (jpeg_list_file args)), s)) /\
    exists s', main net (Some valid) args s = (Exc (invalid_url_error u (jpeg_list_file args)), s') /\
               st_fs s' = st_fs s /\ st_requests s' = st_requests s.
Proof.
  intros Hf Hbad.
  destruct (validate_lines_rejects valid (jpeg_list_file args) (py_lines content) Hbad)
    as [u [Hin [Hne [Hv Hrun]]]].
  exists u. split; [exact Hin|]. split; [exact Hne|]. split; [exact Hv|].
  assert (Hgen : forall pattern s0, st_fs s0 = st_fs s ->
    ListFileURLGenerator_init (Some valid) (jpeg_list_file args) pattern s0 =
    (Exc (invalid_url_error u (jpeg_list_file args)), s0)).
  { intros pattern s0 Hs0. apply (generator_init_rejects _ _ _ content); [now rewrite Hs0|].
    apply Hrun. }
  split; [intros pattern; now apply Hgen|].
  set (s1 := mkState (st_fs s) (st_out s ++ ["BatchJPEGDownloader, Copyright (c) 2016 Oliver Meister" ++ newline;
                                               "" ++ newline]%string) (st_requests s) (st_stdin s)).
  exists s1. split; [|split; reflexivity].
  unfold main. unfold mbind at 1 2 3, M_bind at 1 2 3, bind at 1 2 3.
  change (print "BatchJPEGDownloader, Copyright (c) 2016 Oliver Meister" s) with
    (Ok tt, mkState (st_fs s) (st_out s ++ ["BatchJPEGDownloader, Copyright (c) 2016 Oliver Meister" ++ newline]%string)
              (st_requests s) (st_stdin s)).
  cbv beta iota.
  unfold print at 1, write_out at 1. cbv beta iota. cbn [st_fs st_out st_requests st_stdin].
  rewrite <- app_assoc.
  rewrite Hgen by reflexivity. reflexivity.
Qed.

Lemma invalid_url_aborts_before_download_witness :
  fs_lookup (st_fs Fixtures.s_list) (jpeg_list_file Fixtures.args_list) =
    Some (File Fixtures.list_content) /\
  (exists l, In l (py_lines Fixtures.list_content) /\ py_strip l <> ""%string /\
             Fixtures.valid_https (py_strip l) = false) /\
  exists u, In u (map py_strip (py_lines Fixtures.list_content)) /\ u <> ""%string /\
    Fixtures.valid_https u = false /\
    (forall pattern,
       ListFileURLGenerator_init (Some Fixtures.valid_https) (jpeg_list_file Fixtures.args_list)
         pattern Fixtures.s_list =
       (Exc (invalid_url_error u (jpeg_list_file Fixtures.args_list)), Fixtures.s_list)) /\
    exists s', main Fixtures.net_e (Some Fixtures.valid_https) Fixtures.args_list Fixtures.s_list =
                 (Exc (invalid_url_error u (jpeg_list_file Fixtures.args_list)), s') /\
               st_fs s' = st_fs Fixtures.s_list /\ st_requests s' = st_requests Fixtures.s_list.
Proof.
  assert (Hf : fs_lookup (st_fs Fixtures.s_list) (jpeg_list_file Fixtures.args_list) =
                 Some (File Fixtures.list_content)) by (vm_compute; reflexivity).
  assert (Hbad : exists l, In l (py_lines Fixtures.list_content) /\ py_strip l <> ""%string /\
                   Fixtures.valid_https (py_strip l) = false).
  { exists ("not a url" ++ newline)%string.
    split; [vm_compute; right; left; reflexivity|].
    split; [vm_compute; discriminate | vm_compute; reflexivity]. }
  split; [exact Hf|]. split; [exact Hbad|].
  exact (invalid_url_aborts_before_download Fixtures.net_e Fixtures.valid_https
           Fixtures.args_list Fixtures.list_content Fixtures.s_list Hf Hbad).
Defined.

(* ------------------------------------------------------------------ *)
(** ** Effects of one [download_file] call *)

Lemma download_file_effects (net : string -> net_outcome) (self : BatchDownloader)
    (u f : string) (s : state) (r : res unit) (s2 : state) :
  download_file net self u f s = (r, s2) ->
  st_stdin s2 = st_stdin s /\
  (forall k, k <> norm_path f -> st_fs s2 !! k = st_fs s !! k) /\
  (exists extra, st_out s2 = st_out s ++ extra /\ ~ In ("Done." ++ newline)%string extra) /\
  (st_requests s2 = st_requests s \/ st_requests s2 = st_requests s ++ [u]) /\
  (forall e, r = Exc e -> is_oserror e = true ->
             last (st_out s2) = Some ("failed." ++ newline)%string).
Proof.
  unfold download_file, urlretrieve, retrieve_to, write_file, os_path_isfile, os_path_isdir. unfold_M.
  repeat case_match; intros Hrun; simplify_eq/=.
  all: split; [reflexivity|].
  all: split; [intros k Hk; rewrite ?lookup_insert_ne by congruence; reflexivity|].
  all: split; [eexists; split; [rewrite <- ?app_assoc; reflexivity|];
               intros Hin; cbn [app In] in Hin; intuition congruence|].
  all: split; [first [left; reflexivity | right; reflexivity]|].
  all: intros e He Hos; simplify_eq/=; try discriminate.
  all: rewrite ?app_assoc; apply last_snoc.
Qed.

Lemma download_list_unfold (net : string -> net_outcome) (self : BatchDownloader)
    (l : list string) (s : state) :
  download net self (PyList (map PyStr l)) s =
  match download_loop net self (PyList (map PyStr l)) (map (fun x => Yield (PyStr x)) l) s with
  | (Ok _, s') => print "Done." s'
  | (Exc e, s') => (Exc e, s')
  end.
Proof.
  unfold download. cbn [py_iterable negb]. unfold for_steps.
  unfold mbind at 1, M_bind at 1, bind at 1. unfold mret, M_ret, ret. cbv beta iota.
  rewrite map_map. reflexivity.
Qed.

(* ------------------------------------------------------------------ *)
(** ** A failing transfer in the middle of a batch *)

(** Claim C1 (counterexample): spec scenario E; the second of three URLs
    cannot be reached.  The batch ends with the [OSError] of that transfer
    and the third URL is never requested. *)
Lemma batch_continues_counterexample :
  fst (download Fixtures.net_e Fixtures.dl_keep (PyList (map PyStr Fixtures.urls_e)) Fixtures.s_out) =
    Exc (OSError "<urlopen error>") /\
  st_requests (snd (download Fixtures.net_e Fixtures.dl_keep
                      (PyList (map PyStr Fixtures.urls_e)) Fixtures.s_out)) =
    ["https://a/x.jpg"; "https://b/y.jpg"] /\
  ~ In "https://c/z.jpg"%string
      (st_requests (snd (download Fixtures.net_e Fixtures.dl_keep
                           (PyList (map PyStr Fixtures.urls_e)) Fixtures.s_out))).
Proof.
  vm_compute. split; [reflexivity|]. split; [reflexivity|].
  intros [H|[H|[]]]; discriminate.
Qed.

(** Claim C1 (amended): when the transfer of a URL fails with an [OSError]
    ([IOError]), [download_file] prints ["failed."] and re-raises, and
    [download] ends with exactly that exception and state: no later URL is
    requested and ["Done."] is not printed. *)
Theorem download_aborts_on_io_error (net : string -> net_outcome) (self : BatchDownloader)
    (pre post : list string) (u : string) (e : exn) (s s1 s2 : state) :
  download_loop net self (PyList (map PyStr (pre ++ u :: post)))
    (map (fun x => Yield (PyStr x)) pre) s = (Ok tt, s1) ->
  download_file net self u (local_filename (download_directory self) u) s1 = (Exc e, s2) ->
  is_oserror e = true ->
  download net self (PyList (map PyStr (pre ++ u :: post))) s = (Exc e, s2) /\
  last (st_out s2) = Some ("failed." ++ newline)%string /\
  (st_requests s2 = st_requests s1 \/ st_requests s2 = st_requests s1 ++ [u]).
Proof.
  intros Hpre Hu Hos.
  destruct (download_file_effects _ _ _ _ _ _ _ Hu) as (_ & _ & _ & Hreq & Hfail).
  split; [|split; [exact (Hfail e eq_refl Hos) | exact Hreq]].
  rewrite download_list_unfold, (map_app (fun x => Yield (PyStr x))), download_loop_app, Hpre.
  cbn [map download_loop]. unfold mbind at 1, M_bind at 1, bind at 1.
  rewrite Hu. reflexivity.
Qed.

Lemma download_aborts_on_io_error_witness :
  download_loop Fixtures.net_e Fixtures.dl_keep
    (PyList (map PyStr (["https://a/x.jpg"] ++ "https://b/y.jpg" :: ["https://c/z.jpg"])))
    (map (fun x => Yield (PyStr x)) ["https://a/x.jpg"%string]) Fixtures.s_out = (Ok tt, Fixtures.s_e1) /\
  download_file Fixtures.net_e Fixtures.dl_keep "https://b/y.jpg"
    (local_filename (download_directory Fixtures.dl_keep) "https://b/y.jpg") Fixtures.s_e1 =
    (Exc (OSError "<urlopen error>"), Fixtures.s_e2) /\
  is_oserror (OSError "<urlopen error>") = true /\
  download Fixtures.net_e Fixtures.dl_keep
    (PyList (map PyStr (["https://a/x.jpg"] ++ "https://b/y.jpg" :: ["https://c/z.jpg"]))) Fixtures.s_out =
    (Exc (OSError "<urlopen error>"), Fixtures.s_e2) /\
  last (st_out Fixtures.s_e2) = Some ("failed." ++ newline)%string /\
  (st_requests Fixtures.s_e2 = st_requests Fixtures.s_e1 \/
   st_requests Fixtures.s_e2 = st_requests Fixtures.s_e1 ++ ["https://b/y.jpg"%string]).
Proof.
  assert (H1 : download_loop Fixtures.net_e Fixtures.dl_keep
    (PyList (map PyStr (["https://a/x.jpg"] ++ "https://b/y.jpg" :: ["https://c/z.jpg"])))
    (map (fun x => Yield (PyStr x)) ["https://a/x.jpg"%string]) Fixtures.s_out = (Ok tt, Fixtures.s_e1))
    by (vm_compute; reflexivity).
  assert (H2 : download_file Fixtures.net_e Fixtures.dl_keep "https://b/y.jpg"
    (local_filename (download_directory Fixtures.dl_keep) "https://b/y.jpg") Fixtures.s_e1 =
    (Exc (OSError "<urlopen error>"), Fixtures.s_e2)) by (vm_compute; reflexivity).
  split; [exact H1|]. split; [exact H2|]. split; [reflexivity|].
  exact (download_aborts_on_io_error Fixtures.net_e Fixtures.dl_keep ["https://a/x.jpg"%string]
           ["https://c/z.jpg"%string] "https://b/y.jpg" (OSError "<urlopen error>")
           Fixtures.s_out Fixtures.s_e1 Fixtures.s_e2 H1 H2 eq_refl).
Defined.

Lemma download_loop_no_done (net : string -> net_outcome) (self : BatchDownloader)
    (urls : pyval) (l : list string) (s : state) (r : res unit) (s' : state) :
  download_loop net self urls (map (fun x => Yield (PyStr x)) l) s = (r, s') ->
  exists extra, st_out s' = st_out s ++ extra /\ ~ In ("Done." ++ newline)%string extra.
Proof.
  revert s. induction l as [|x rest IH]; intros s Hrun.
  - cbn in Hrun. injection Hrun as _ <-. exists []. split; [now rewrite app_nil_r | intros []].
  - cbn [map download_loop] in Hrun. unfold mbind, M_bind, bind in Hrun.
    destruct (download_file net self x _ s) as [[] s1] eqn:E;
      destruct (download_file_effects _ _ _ _ _ _ _ E) as (_ & _ & [ex1 [Hout1 Hnd1]] & _).
    + destruct (IH s1 Hrun) as [ex2 [Hout2 Hnd2]].
      exists (ex1 ++ ex2). rewrite Hout2, Hout1, app_assoc. split; [reflexivity|].
      intros Hin. apply in_app_or in Hin as [Hin|Hin]; auto.
    + injection Hrun as _ <-. now exists ex1.
Qed.

(** Claim C10 (counterexample): two URLs share the name [x.jpg] and the
    second transfer breaks off after part of the body: the file written for
    the first URL is not left unchanged, it now holds the partial body. *)
Lemma earlier_file_unchanged_counterexample :
  st_fs Fixtures.s_cut1 !! "/out/x.jpg"%string = Some (File "full") /\
  fst (download Fixtures.net_cut Fixtures.dl_force (PyList (map PyStr Fixtures.urls_cut)) Fixtures.s_out) =
    Exc (OSError "retrieval incomplete") /\
  st_fs (snd (download Fixtures.net_cut Fixtures.dl_force (PyList (map PyStr Fixtures.urls_cut))
                Fixtures.s_out)) !! "/out/x.jpg"%string = Some (File "part").
Proof. vm_compute. split; [reflexivity|]. split; reflexivity. Qed.

(** Claim C10 (amended): when the transfer of the k-th URL fails with an
    [OSError], ["failed."] is printed and the exception leaves [download]
    with no cleanup: every path other than the k-th URL's local path holds
    what the first k-1 items left there, and ["Done."] is never printed. *)
Theorem download_io_error_keeps_other_paths (net : string -> net_outcome)
    (self : BatchDownloader) (pre post : list string) (u : string) (e : exn)
    (s s1 s2 : state) :
  download_loop net self (PyList (map PyStr (pre ++ u :: post)))
    (map (fun x => Yield (PyStr x)) pre) s = (Ok tt, s1) ->
  download_file net self u (local_filename (download_directory self) u) s1 = (Exc e, s2) ->
  is_oserror e = true ->
  download net self (PyList (map PyStr (pre ++ u :: post))) s = (Exc e, s2) /\
  last (st_out s2) = Some ("failed." ++ newline)%string /\
  (forall k, k <> norm_path (local_filename (download_directory self) u) ->
             st_fs s2 !! k = st_fs s1 !! k) /\
  (exists extra, st_out s2 = st_out s ++ extra /\ ~ In ("Done." ++ newline)%string extra).
Proof.
  intros Hpre Hu Hos.
  destruct (download_file_effects _ _ _ _ _ _ _ Hu) as (_ & Hfs & [ex2 [Hout2 Hnd2]] & _ & Hfail).
  destruct (download_loop_no_done _ _ _ _ _ _ _ Hpre) as [ex1 [Hout1 Hnd1]].
  split.
  { rewrite download_list_unfold, (map_app (fun x => Yield (PyStr x))), download_loop_app, Hpre.
    cbn [map download_loop]. unfold mbind at 1, M_bind at 1, bind at 1.
    rewrite Hu. reflexivity. }
  split; [exact (Hfail e eq_refl Hos)|].
  split; [exact Hfs|].
  exists (ex1 ++ ex2). rewrite Hout2, Hout1, app_assoc. split; [reflexivity|].
  intros Hin. apply in_app_or in Hin as [Hin|Hin]; auto.
Qed.

Lemma download_io_error_keeps_other_paths_witness :
  download_loop Fixtures.net_cut Fixtures.dl_force
    (PyList (map PyStr (["https://a/x.jpg"] ++ "https://b/x.jpg" :: [])))
    (map (fun x => Yield (PyStr x)) ["https://a/x.jpg"%string]) Fixtures.s_out = (Ok tt, Fixtures.s_cut1) /\
  download_file Fixtures.net_cut Fixtures.dl_force "https://b/x.jpg"
    (local_filename (download_directory Fixtures.dl_force) "https://b/x.jpg") Fixtures.s_cut1 =
    (Exc (OSError "retrieval incomplete"), Fixtures.s_cut2) /\
  is_oserror (OSError "retrieval incomplete") = true /\
  download Fixtures.net_cut Fixtures.dl_force
    (PyList (map PyStr (["https://a/x.jpg"] ++ "https://b/x.jpg" :: []))) Fixtures.s_out =
    (Exc (OSError "retrieval incomplete"), Fixtures.s_cut2) /\
  last (st_out Fixtures.s_cut2) = Some ("failed." ++ newline)%string /\
  (forall k, k <> norm_path (local_filename (download_directory Fixtures.dl_force) "https://b/x.jpg") ->
             st_fs Fixtures.s_cut2 !! k = st_fs Fixtures.s_cut1 !! k) /\
  (exists extra, st_out Fixtures.s_cut2 = st_out Fixtures.s_out ++ extra /\
                 ~ In ("Done." ++ newline)%string extra).
Proof.
  assert (H1 : download_loop Fixtures.net_cut Fixtures.dl_force
    (PyList (map PyStr (["https://a/x.jpg"] ++ "https://b/x.jpg" :: [])))
    (map (fun x => Yield (PyStr x)) ["https://a/x.jpg"%string]) Fixtures.s_out = (Ok tt, Fixtures.s_cut1))
    by (vm_compute; reflexivity).
  assert (H2 : download_file Fixtures.net_cut Fixtures.dl_force "https://b/x.jpg"
    (local_filename (download_directory Fixtures.dl_force) "https://b/x.jpg") Fixtures.s_cut1 =
    (Exc (OSError "retrieval incomplete"), Fixtures.s_cut2)) by (vm_compute; reflexivity).
  split; [exact H1|]. split; [exact H2|]. split; [reflexivity|].
  exact (download_io_error_keeps_other_paths Fixtures.net_cut Fixtures.dl_force ["https://a/x.jpg"%string]
           [] "https://b/x.jpg" (OSError "retrieval incomplete")
           Fixtures.s_out Fixtures.s_cut1 Fixtures.s_cut2 H1 H2 eq_refl).
Defined.

(* ------------------------------------------------------------------ *)
(** ** Overwrite decisions and operator input *)

Create HintDb stdin_db.

Lemma keeps_stdin_ret {A} (a : A) : keeps_stdin (ret a).
Proof. intros s. reflexivity. Qed.

Lemma keeps_stdin_throw {A} (e : exn) : keeps_stdin (A:=A) (throw e).
Proof. intros s. reflexivity. Qed.

Lemma keeps_stdin_print (t : string) : keeps_stdin (print t).
Proof. intros s. reflexivity. Qed.

Lemma keeps_stdin_get_fs : keeps_stdin get_fs.
Proof. intros s. reflexivity. Qed.

Lemma keeps_stdin_bind {A B} (m : M A) (k : A -> M B) :
  keeps_stdin m -> (forall a, keeps_stdin (k a)) -> keeps_stdin (m ≫= k).
Proof.
  intros Hm Hk s. unfold mbind, M_bind, bind.
  specialize (Hm s). destruct (m s) as [[a|e] s'] eqn:E; simpl in *.
  - now rewrite Hk.
  - exact Hm.
Qed.

Lemma keeps_stdin_download_file (net : string -> net_outcome) (self : BatchDownloader)
    (u f : string) : keeps_stdin (download_file net self u f).
Proof.
  intros s. destruct (download_file net self u f s) as [r s2] eqn:E.
  now destruct (download_file_effects _ _ _ _ _ _ _ E).
Qed.

#[local] Hint Resolve keeps_stdin_ret keeps_stdin_throw keeps_stdin_print keeps_stdin_get_fs
  keeps_stdin_bind keeps_stdin_download_file : stdin_db.

Lemma keeps_stdin_download_loop (net : string -> net_outcome) (self : BatchDownloader)
    (urls : pyval) (steps : list step) : keeps_stdin (download_loop net self urls steps).
Proof.
  induction steps as [|[t|v] r IH]; cbn [download_loop]; auto with stdin_db.
  destruct v; auto with stdin_db.
Qed.

#[local] Hint Resolve keeps_stdin_download_loop : stdin_db.

Lemma keeps_stdin_open_read (p : string) : keeps_stdin (open_read p).
Proof.
  unfold open_read. apply keeps_stdin_bind; [auto with stdin_db|].
  intros f. destruct (fs_lookup f p) as [[]|]; auto with stdin_db.
Qed.

#[local] Hint Resolve keeps_stdin_open_read : stdin_db.

Lemma keeps_stdin_for_steps (urls : pyval) : keeps_stdin (for_steps urls).
Proof. destruct urls; cbn [for_steps]; auto with stdin_db. Qed.

#[local] Hint Resolve keeps_stdin_for_steps : stdin_db.

Lemma keeps_stdin_download (net : string -> net_outcome) (self : BatchDownloader)
    (urls : pyval) : keeps_stdin (download net self urls).
Proof. unfold download. destruct (negb _); auto with stdin_db. Qed.

(** On a conflict, [download_file] looks only at [default_overwrite]. *)
Lemma download_file_conflict (net : string -> net_outcome) (self : BatchDownloader)
    (url f content : string) (s : state) :
  fs_lookup (st_fs s) f = Some (File content) ->
  download_file net self url f s =
  if default_overwrite self then
    (write_out ("Downloading " ++ py_repr url ++ " to " ++ py_repr f ++ "...")%string;;
     try_except (urlretrieve net url f;; print "done.") is_oserror
       (fun e => print "failed.";; throw e)) s
  else (Ok tt, mkState (st_fs s)
                 (st_out s ++ [("Skipping already existing file " ++ py_repr f ++ "." ++ newline)%string])
                 (st_requests s) (st_stdin s)).
Proof.
  intros Hf.
  assert (Hisf : os_path_isfile f s = (Ok true, s)).
  { unfold os_path_isfile, isfile. unfold_M. now rewrite Hf. }
  unfold download_file. unfold mbind at 1, M_bind at 1, bind at 1.
  rewrite Hisf. cbv beta iota.
  destruct (default_overwrite self); cbn [andb negb]; [reflexivity|].
  unfold print, write_out. now rewrite <- !PathFacts.append_assoc_str.
Qed.

(** Claim C8 (code bug): the class promises a flag that activates an
    interactive mode, and [download_file] binds [get_input] to [input], but
    no prompt is ever made.  A conflict on [/out/x.jpg] while the operator
    has ["always"] ready on the terminal: no question is printed and no
    input is read; with [default_overwrite] false the file is skipped, with
    [default_overwrite] true it is fetched again; and no batch ever reads
    operator input. *)
Lemma conflict_resolved_without_prompt :
  download_file Fixtures.net_e Fixtures.dl_keep "https://a/x.jpg" "/out/x.jpg" Fixtures.s_out_x =
    (Ok tt, mkState Fixtures.fs_out_x
              [("Skipping already existing file " ++ py_repr "/out/x.jpg" ++ "." ++ newline)%string]
              [] ["always"%string]) /\
  st_out (snd (download_file Fixtures.net_e Fixtures.dl_force "https://a/x.jpg" "/out/x.jpg"
                 Fixtures.s_out_x)) =
    [("Downloading " ++ py_repr "https://a/x.jpg" ++ " to " ++ py_repr "/out/x.jpg" ++ "...")%string;
     ("done." ++ newline)%string] /\
  st_stdin (snd (download_file Fixtures.net_e Fixtures.dl_force "https://a/x.jpg" "/out/x.jpg"
                   Fixtures.s_out_x)) = ["always"%string] /\
  (forall net self urls s, st_stdin (snd (download net self urls s)) = st_stdin s).
Proof.
  split; [vm_compute; reflexivity|]. split; [vm_compute; reflexivity|].
  split; [vm_compute; reflexivity|].
  intros net self urls s. apply keeps_stdin_download.
Qed.

(* ------------------------------------------------------------------ *)
(** ** Opening and checking the list file *)

Lemma validate_lines_accepts (valid : string -> bool) (filename : string)
    (lines : list string) (s : state) :
  (forall l, In l lines -> py_strip l <> ""%string -> valid (py_strip l) = true) ->
  validate_lines valid filename lines s = (Ok tt, s).
Proof.
  induction lines as [|l r IH]; intros Hv; [reflexivity|].
  assert (Hr : validate_lines valid filename r s = (Ok tt, s))
    by (apply IH; intros l' Hl'; apply Hv; now right).
  cbn [validate_lines]. destruct (py_strip l) as [|c t] eqn:E; [exact Hr|].
  assert (Hvl : valid (String c t) = true)
    by (rewrite <- E; apply Hv; [now left | rewrite E; discriminate]).
  rewrite Hvl, andb_false_r. exact Hr.
Qed.

Lemma validate_lines_state (valid : string -> bool) (filename : string)
    (lines : list string) (s : state) :
  snd (validate_lines valid filename lines s) = s.
Proof.
  induction lines as [|l r IH]; [reflexivity|].
  cbn [validate_lines]. destruct (_ && _); [reflexivity | exact IH].
Qed.

(** [ListFileURLGenerator.__init__] on a list file that cannot be opened for
    reading (missing, or a directory): whatever [validators] is, it prints
    that the file does not appear to be valid and re-raises the [OSError];
    nothing else changes. *)
Theorem generator_init_unreadable_file (validators : option (string -> bool))
    (filename pattern : string) (s : state) :
  (forall c, fs_lookup (st_fs s) filename <> Some (File c)) ->
  exists msg, ListFileURLGenerator_init validators filename pattern s =
    (Exc (OSError msg),
     mkState (st_fs s)
       (st_out s ++ [("Error: " ++ py_repr filename ++ " does not appear to be a valid file." ++ newline)%string])
       (st_requests s) (st_stdin s)).
Proof.
  intros Hnf. unfold ListFileURLGenerator_init, open_read. unfold_M.
  destruct (fs_lookup (st_fs s) filename) as [[c|]|] eqn:E.
  - exfalso. exact (Hnf c eq_refl).
  - eexists. cbn [is_oserror]. now rewrite <- !PathFacts.append_assoc_str.
  - eexists. cbn [is_oserror]. now rewrite <- !PathFacts.append_assoc_str.
Qed.

Lemma generator_init_unreadable_file_witness :
  (forall c, fs_lookup (st_fs Fixtures.s_out) "/list.txt" <> Some (File c)) /\
  exists msg, ListFileURLGenerator_init None "/list.txt" "*.jpg" Fixtures.s_out =
    (Exc (OSError msg),
     mkState (st_fs Fixtures.s_out)
       (st_out Fixtures.s_out ++
        [("Error: " ++ py_repr "/list.txt" ++ " does not appear to be a valid file." ++ newline)%string])
       (st_requests Fixtures.s_out) (st_stdin Fixtures.s_out)).
Proof.
  assert (H : forall c, fs_lookup (st_fs Fixtures.s_out) "/list.txt" <> Some (File c))
    by (intros c Hc; vm_compute in Hc; discriminate).
  split; [exact H|].
  exact (generator_init_unreadable_file None "/list.txt" "*.jpg" Fixtures.s_out H).
Defined.

(** Without the [validators] package the constructor accepts any readable
    list file, whatever its lines: it prints the four warning lines and
    returns the generator; nothing else changes. *)
Theorem generator_init_without_validators (filename pattern content : string) (s : state) :
  fs_lookup (st_fs s) filename = Some (File content) ->
  ListFileURLGenerator_init None filename pattern s =
  (Ok (mkGen filename pattern),
   mkState (st_fs s)
     (st_out s ++ map (fun t => t ++ newline)%string
        ["Warning: failed to load the validators package.";
         "To check URLs for correctness install the module via";
         "pip install validators"; ""])
     (st_requests s) (st_stdin s)).
Proof.
  intros Hf. unfold ListFileURLGenerator_init, open_read. unfold_M.
  rewrite Hf. cbn [map st_fs st_out st_requests st_stdin]. now rewrite <- !app_assoc.
Qed.

Lemma generator_init_without_validators_witness :
  fs_lookup (st_fs Fixtures.s_list) "/list.txt" = Some (File Fixtures.list_content) /\
  ListFileURLGenerator_init None "/list.txt" "*.jpg" Fixtures.s_list =
  (Ok (mkGen "/list.txt" "*.jpg"),
   mkState (st_fs Fixtures.s_list)
     (st_out Fixtures.s_list ++ map (fun t => t ++ newline)%string
        ["Warning: failed to load the validators package.";
         "To check URLs for correctness install the module via";
         "pip install validators"; ""])
     (st_requests Fixtures.s_list) (st_stdin Fixtures.s_list)).
Proof.
  assert (H : fs_lookup (st_fs Fixtures.s_list) "/list.txt" = Some (File Fixtures.list_content))
    by (vm_compute; reflexivity).
  split; [exact H|].
  exact (generator_init_without_validators "/list.txt" "*.jpg" Fixtures.list_content Fixtures.s_list H).
Defined.

(** With [validators] available, a readable list file whose non-blank
    stripped lines all pass [validators.url] is accepted silently: the
    generator is returned and the state is unchanged. *)
Theorem generator_init_accepts_valid_lines (valid : string -> bool)
    (filename pattern content : string) (s : state) :
  fs_lookup (st_fs s) filename = Some (File content) ->
  (forall l, In l (py_lines content) -> py_strip l <> ""%string -> valid (py_strip l) = true) ->
  ListFileURLGenerator_init (Some valid) filename pattern s = (Ok (mkGen filename pattern), s).
Proof.
  intros Hf Hv. unfold ListFileURLGenerator_init, open_read. unfold_M.
  rewrite Hf. cbv beta iota. rewrite (validate_lines_accepts _ _ _ _ Hv). reflexivity.
Qed.

Lemma generator_init_accepts_valid_lines_witness :
  fs_lookup (st_fs Fixtures.s_ok) "/list.txt" = Some (File Fixtures.ok_content) /\
  (forall l, In l (py_lines Fixtures.ok_content) -> py_strip l <> ""%string ->
             Fixtures.valid_https (py_strip l) = true) /\
  ListFileURLGenerator_init (Some Fixtures.valid_https) "/list.txt" "*.jpg" Fixtures.s_ok =
    (Ok (mkGen "/list.txt" "*.jpg"), Fixtures.s_ok).
Proof.
  assert (H1 : fs_lookup (st_fs Fixtures.s_ok) "/list.txt" = Some (File Fixtures.ok_content))
    by (vm_compute; reflexivity).
  assert (H2 : forall l, In l (py_lines Fixtures.ok_content) -> py_strip l <> ""%string ->
                         Fixtures.valid_https (py_strip l) = true).
  { intros l Hl Hne. vm_compute in Hl.
    destruct Hl as [<-|[<-|[<-|[]]]]; vm_compute; [reflexivity | | reflexivity].
    exfalso. apply Hne. vm_compute. reflexivity. }
  split; [exact H1|]. split; [exact H2|].
  exact (generator_init_accepts_valid_lines Fixtures.valid_https "/list.txt" "*.jpg"
           Fixtures.ok_content Fixtures.s_ok H1 H2).
Defined.

(* ------------------------------------------------------------------ *)
(** ** Creating the download directory *)

Lemma create_download_directory_effects (self : BatchDownloader) (s : state)
    (r : res unit) (s' : state) :
  create_download_directory self s = (r, s') ->
  st_out s' = st_out s /\ st_requests s' = st_requests s /\ st_stdin s' = st_stdin s /\
  (st_fs s' = st_fs s \/
   (st_fs s !! norm_path (download_directory self) = None /\
    st_fs s' = <[norm_path (download_directory self) := Dir]> (st_fs s))) /\
  (r = Ok tt -> isdir (st_fs s') (download_directory self) = true).
Proof.
  unfold create_download_directory, os_path_isdir, os_mkdir. unfold_M.
  repeat case_match; intros Hrun; simplify_eq/=.
  all: split; [reflexivity|]; split; [reflexivity|]; split; [reflexivity|].
  all: try (split; [left; reflexivity|]).
  all: try (split; [right; split; [first [assumption | reflexivity] | reflexivity]|]).
  all: intros Hr; simplify_eq/=; try discriminate.
  all: try assumption.
  all: try (apply negb_false_iff; assumption).
  unfold isdir, fs_lookup. now rewrite lookup_insert_eq.
Qed.

(** [create_download_directory] never prints, fetches or reads input, and
    the only change it can make to the file system is a new directory entry
    at the download path, where nothing was; when it returns normally, the
    path is a directory (also when [mkdir] failed because the directory had
    appeared in the meantime). *)
Theorem create_download_directory_frame (self : BatchDownloader) (s : state)
    (r : res unit) (s' : state) :
  create_download_directory self s = (r, s') ->
  st_out s' = st_out s /\ st_requests s' = st_requests s /\ st_stdin s' = st_stdin s /\
  (forall k, k <> norm_path (download_directory self) -> st_fs s' !! k = st_fs s !! k) /\
  (st_fs s' !! norm_path (download_directory self) = st_fs s !! norm_path (download_directory self) \/
   (st_fs s !! norm_path (download_directory self) = None /\
    st_fs s' !! norm_path (download_directory self) = Some Dir)) /\
  (r = Ok tt -> isdir (st_fs s') (download_directory self) = true).
Proof.
  intros Hrun.
  destruct (create_download_directory_effects _ _ _ _ Hrun) as (Ho & Hq & Hi & Hfs & Hok).
  do 3 (split; [assumption|]).
  destruct Hfs as [Heq | [Hnone Hins]].
  - split; [intros k _; now rewrite Heq|]. split; [left; now rewrite Heq | exact Hok].
  - split; [intros k Hk; rewrite Hins; now rewrite lookup_insert_ne by congruence|].
    split; [right; split; [exact Hnone | rewrite Hins; apply lookup_insert_eq] | exact Hok].
Qed.

Lemma create_download_directory_frame_witness :
  create_download_directory Fixtures.dl_create Fixtures.s_out = (Ok tt, Fixtures.s_created) /\
  st_out Fixtures.s_created = st_out Fixtures.s_out /\
  st_requests Fixtures.s_created = st_requests Fixtures.s_out /\
  st_stdin Fixtures.s_created = st_stdin Fixtures.s_out /\
  (forall k, k <> norm_path "/new" -> st_fs Fixtures.s_created !! k = st_fs Fixtures.s_out !! k) /\
  (st_fs Fixtures.s_created !! norm_path "/new" = st_fs Fixtures.s_out !! norm_path "/new" \/
   (st_fs Fixtures.s_out !! norm_path "/new" = None /\
    st_fs Fixtures.s_created !! norm_path "/new" = Some Dir)) /\
  (@Ok unit tt = Ok tt -> isdir (st_fs Fixtures.s_created) "/new" = true).
Proof.
  assert (H : create_download_directory Fixtures.dl_create Fixtures.s_out = (Ok tt, Fixtures.s_created))
    by (vm_compute; reflexivity).
  split; [exact H|].
  exact (create_download_directory_frame Fixtures.dl_create Fixtures.s_out (Ok tt) Fixtures.s_created H).
Defined.

(** With creation allowed, a download path whose parent directory does not
    exist: [os.mkdir] raises [OSError], the path is still no directory, so
    the handler re-raises it; the state is unchanged. *)
Theorem create_download_directory_missing_parent (self : BatchDownloader) (s : state) :
  default_create_directory self = true ->
  st_fs s !! norm_path (download_directory self) = None ->
  os_path_dirname (norm_path (download_directory self)) <> ""%string ->
  isdir (st_fs s) (os_path_dirname (norm_path (download_directory self))) = false ->
  create_download_directory self s = (Exc (OSError "No such file or directory"), s).
Proof.
  intros Hc Hn Hpe Hpd.
  assert (Hd : isdir (st_fs s) (download_directory self) = false)
    by (unfold isdir, fs_lookup; now rewrite Hn).
  apply String.eqb_neq in Hpe.
  unfold create_download_directory, os_path_isdir, os_mkdir. unfold_M.
  rewrite Hd, Hc. cbn [negb].
  destruct (String.eqb (download_directory self) ""); [cbn [is_oserror]; now rewrite Hd|].
  rewrite Hn, Hpe, Hpd. cbn [negb andb is_oserror]. now rewrite Hd.
Qed.

Lemma create_download_directory_missing_parent_witness :
  default_create_directory Fixtures.dl_deep = true /\
  st_fs Fixtures.s_out !! norm_path (download_directory Fixtures.dl_deep) = None /\
  os_path_dirname (norm_path (download_directory Fixtures.dl_deep)) <> ""%string /\
  isdir (st_fs Fixtures.s_out) (os_path_dirname (norm_path (download_directory Fixtures.dl_deep))) = false /\
  create_download_directory Fixtures.dl_deep Fixtures.s_out =
    (Exc (OSError "No such file or directory"), Fixtures.s_out).
Proof.
  assert (H1 : default_create_directory Fixtures.dl_deep = true) by reflexivity.
  assert (H2 : st_fs Fixtures.s_out !! norm_path (download_directory Fixtures.dl_deep) = None)
    by (vm_compute; reflexivity).
  assert (H3 : os_path_dirname (norm_path (download_directory Fixtures.dl_deep)) <> ""%string)
    by (vm_compute; discriminate).
  assert (H4 : isdir (st_fs Fixtures.s_out)
                 (os_path_dirname (norm_path (download_directory Fixtures.dl_deep))) = false)
    by (vm_compute; reflexivity).
  do 4 (split; [assumption|]).
  exact (create_download_directory_missing_parent Fixtures.dl_deep Fixtures.s_out H1 H2 H3 H4).
Defined.

(** With creation allowed, a download path taken by a regular file:
    [os.mkdir] raises [OSError], the path is no directory, so the error is
    re-raised and the file is left as it was. *)
Theorem create_download_directory_over_file (self : BatchDownloader) (content : string) (s : state) :
  default_create_directory self = true ->
  st_fs s !! norm_path (download_directory self) = Some (File content) ->
  exists msg, create_download_directory self s = (Exc (OSError msg), s).
Proof.
  intros Hc Hn.
  assert (Hd : isdir (st_fs s) (download_directory self) = false)
    by (unfold isdir, fs_lookup; rewrite Hn; now destruct (ends_with_slash _)).
  unfold create_download_directory, os_path_isdir, os_mkdir. unfold_M.
  rewrite Hd, Hc. cbn [negb].
  destruct (String.eqb (download_directory self) ""); [cbn [is_oserror]; rewrite Hd; now eexists|].
  rewrite Hn. cbn [is_oserror]. rewrite Hd. now eexists.
Qed.

Lemma create_download_directory_over_file_witness :
  default_create_directory Fixtures.dl_onfile = true /\
  st_fs Fixtures.s_out_x !! norm_path (download_directory Fixtures.dl_onfile) = Some (File "old") /\
  exists msg, create_download_directory Fixtures.dl_onfile Fixtures.s_out_x =
                (Exc (OSError msg), Fixtures.s_out_x).
Proof.
  assert (H1 : default_create_directory Fixtures.dl_onfile = true) by reflexivity.
  assert (H2 : st_fs Fixtures.s_out_x !! norm_path (download_directory Fixtures.dl_onfile) =
                 Some (File "old")) by (vm_compute; reflexivity).
  split; [exact H1|]. split; [exact H2|].
  exact (create_download_directory_over_file Fixtures.dl_onfile "old" Fixtures.s_out_x H1 H2).
Defined.

(* ------------------------------------------------------------------ *)
(** ** What [download] iterates over *)

Lemma download_generator_unfold (net : string -> net_outcome) (self : BatchDownloader)
    (g : ListFileURLGenerator) (content : string) (s : state) :
  fs_lookup (st_fs s) (gen_filename g) = Some (File content) ->
  download net self (PyGen g) s =
  match download_loop net self (PyGen g) (url_gen_steps (gen_pattern g) (py_lines content)) s with
  | (Ok _, s') => print "Done." s'
  | (Exc e, s') => (Exc e, s')
  end.
Proof.
  intros Hf. unfold download. cbn [py_iterable negb]. unfold for_steps, open_read.
  unfold mbind, M_bind, bind, get_fs, mret, M_ret, ret. cbv beta iota.
  rewrite Hf. reflexivity.
Qed.

Lemma download_loop_emits (net : string -> net_outcome) (self : BatchDownloader)
    (urls : pyval) (ts : list string) (s : state) :
  download_loop net self urls (map Emit ts) s =
  (Ok tt, mkState (st_fs s) (st_out s ++ map (fun t => t ++ newline)%string ts)
            (st_requests s) (st_stdin s)).
Proof.
  revert s. induction ts as [|t r IH]; intros s.
  - cbn. rewrite app_nil_r. now destruct s.
  - cbn [map download_loop]. unfold mbind, M_bind, bind, print, write_out.
    rewrite IH. cbn [st_fs st_out st_requests st_stdin]. now rewrite <- app_assoc.
Qed.

Lemma url_gen_steps_no_match (pattern : string) (lines : list string) :
  (forall l, In l lines -> fnmatch (py_strip l) pattern = false) ->
  url_gen_steps pattern lines =
  map Emit (map (fun u => ignore_warning u pattern)
              (List.filter (fun u => negb (String.eqb u "")) (map py_strip lines))).
Proof.
  induction lines as [|l r IH]; intros Hm; [reflexivity|].
  unfold url_gen_steps in *. cbn [flat_map map List.filter].
  rewrite IH by (intros l' Hl'; apply Hm; now right).
  unfold url_gen_line. rewrite (Hm l (or_introl eq_refl)).
  destruct (String.eqb (py_strip l) ""); reflexivity.
Qed.

(** [download] over a generator whose list file holds no line matching
    the pattern: one warning is printed per non-blank line, in order, then
    ["Done."]; nothing is fetched or written. *)
Theorem download_generator_without_matches (net : string -> net_outcome)
    (self : BatchDownloader) (g : ListFileURLGenerator) (content : string) (s : state) :
  fs_lookup (st_fs s) (gen_filename g) = Some (File content) ->
  (forall l, In l (py_lines content) -> fnmatch (py_strip l) (gen_pattern g) = false) ->
  download net self (PyGen g) s =
  (Ok tt, mkState (st_fs s)
            (st_out s ++
             map (fun u => ignore_warning u (gen_pattern g) ++ newline)%string
               (List.filter (fun u => negb (String.eqb u "")) (map py_strip (py_lines content))) ++
             [("Done." ++ newline)%string])
            (st_requests s) (st_stdin s)).
Proof.
  intros Hf Hm. rewrite (download_generator_unfold _ _ _ _ _ Hf).
  rewrite (url_gen_steps_no_match _ _ Hm), download_loop_emits.
  unfold print, write_out. cbn [st_fs st_out st_requests st_stdin].
  rewrite map_map, <- app_assoc. reflexivity.
Qed.

Lemma download_generator_without_matches_witness :
  fs_lookup (st_fs Fixtures.s_png) (gen_filename Fixtures.gen_list) = Some (File Fixtures.png_content) /\
  (forall l, In l (py_lines Fixtures.png_content) ->
             fnmatch (py_strip l) (gen_pattern Fixtures.gen_list) = false) /\
  download Fixtures.net_e Fixtures.dl_keep (PyGen Fixtures.gen_list) Fixtures.s_png =
  (Ok tt, mkState (st_fs Fixtures.s_png)
            (st_out Fixtures.s_png ++
             map (fun u => ignore_warning u (gen_pattern Fixtures.gen_list) ++ newline)%string
               (List.filter (fun u => negb (String.eqb u ""))
                  (map py_strip (py_lines Fixtures.png_content))) ++
             [("Done." ++ newline)%string])
            (st_requests Fixtures.s_png) (st_stdin Fixtures.s_png)).
Proof.
  assert (H1 : fs_lookup (st_fs Fixtures.s_png) (gen_filename Fixtures.gen_list) =
                 Some (File Fixtures.png_content)) by (vm_compute; reflexivity).
  assert (H2 : forall l, In l (py_lines Fixtures.png_content) ->
                         fnmatch (py_strip l) (gen_pattern Fixtures.gen_list) = false).
  { intros l Hl. vm_compute in Hl.
    destruct Hl as [<-|[<-|[<-|[]]]]; vm_compute; reflexivity. }
  split; [exact H1|]. split; [exact H2|].
  exact (download_generator_without_matches Fixtures.net_e Fixtures.dl_keep Fixtures.gen_list
           Fixtures.png_content Fixtures.s_png H1 H2).
Defined.

(* ------------------------------------------------------------------ *)
(** ** Fetching into a free target *)

Lemma isdir_not_file (fs : gmap string entry) (p : string) (e : entry) (q : string) :
  isdir fs p = true -> isdir fs q = false ->
  isdir (<[norm_path q := e]> fs) p = true.
Proof.
  unfold isdir, fs_lookup. intros Hp Hq.
  destruct (decide (norm_path p = norm_path q)) as [Heq|Hne].
  - exfalso. rewrite Heq in Hp.
    destruct (fs !! norm_path q) as [[c|]|]; try discriminate.
    destruct (ends_with_slash p); discriminate.
  - now rewrite lookup_insert_ne by congruence.
Qed.

Lemma fs_lookup_insert_file (fs : gmap string entry) (f body : string) :
  ends_with_slash f = false ->
  fs_lookup (<[norm_path f := File body]> fs) f = Some (File body).
Proof. intros He. unfold fs_lookup. now rewrite lookup_insert_eq, He. Qed.

Lemma download_file_served (net : string -> net_outcome) (self : BatchDownloader)
    (u f body : string) (s : state) :
  (isfile (st_fs s) f = false \/ default_overwrite self = true) ->
  net u = Served body -> f <> ""%string ->
  ends_with_slash f = false -> isdir (st_fs s) f = false ->
  (os_path_dirname f = ""%string \/ isdir (st_fs s) (os_path_dirname f) = true) ->
  download_file net self u f s =
  (Ok tt, mkState (<[norm_path f := File body]> (st_fs s))
            (st_out s ++ [("Downloading " ++ py_repr u ++ " to " ++ py_repr f ++ "...")%string;
                          ("done." ++ newline)%string])
            (st_requests s ++ [u]) (st_stdin s)).
Proof.
  intros Hskip Hn Hne He Hd Hp.
  assert (Hs : isfile (st_fs s) f && negb (default_overwrite self) = false)
    by (destruct Hskip as [-> | ->]; [reflexivity | apply andb_false_r]).
  assert (Hp' : negb (String.eqb (os_path_dirname f) "") &&
                negb (isdir (st_fs s) (os_path_dirname f)) = false).
  { destruct Hp as [-> | ->]; [reflexivity | apply andb_false_r]. }
  apply String.eqb_neq in Hne.
  unfold download_file, urlretrieve, retrieve_to, write_file, os_path_isfile. unfold_M.
  rewrite Hs, Hn. cbn [st_fs st_out st_requests st_stdin].
  rewrite Hne. cbv beta. cbn [st_fs st_out st_requests st_stdin].
  rewrite He, Hd. cbn [orb]. rewrite Hp'. cbn [is_oserror].
  cbn [st_fs st_out st_requests st_stdin]. now rewrite <- !app_assoc.
Qed.

(** [download_file] on a target that is free (or with overwriting on) and
    a URL the remote side serves: one request, the notice and ["done."] are
    printed, the body is written at the target, and reading the target back
    gives the body.  (An empty target name makes [urlretrieve] write to a
    temporary file instead.) *)
Theorem download_file_fetches_body (net : string -> net_outcome) (self : BatchDownloader)
    (u f body : string) (s : state) :
  (isfile (st_fs s) f = false \/ default_overwrite self = true) ->
  net u = Served body -> f <> ""%string ->
  ends_with_slash f = false -> isdir (st_fs s) f = false ->
  (os_path_dirname f = ""%string \/ isdir (st_fs s) (os_path_dirname f) = true) ->
  exists s', download_file net self u f s = (Ok tt, s') /\
    fs_lookup (st_fs s') f = Some (File body) /\
    (forall k, k <> norm_path f -> st_fs s' !! k = st_fs s !! k) /\
    st_out s' = st_out s ++ [("Downloading " ++ py_repr u ++ " to " ++ py_repr f ++ "...")%string;
                             ("done." ++ newline)%string] /\
    st_requests s' = st_requests s ++ [u].
Proof.
  intros Hskip Hn Hne He Hd Hp.
  rewrite (download_file_served _ _ _ _ _ _ Hskip Hn Hne He Hd Hp).
  eexists. split; [reflexivity|]. cbn [st_fs st_out st_requests].
  split; [now apply fs_lookup_insert_file|].
  split; [intros k Hk; now rewrite lookup_insert_ne by congruence|].
  split; reflexivity.
Qed.

Lemma download_file_fetches_body_witness :
  (isfile (st_fs Fixtures.s_out) "/out/x.jpg" = false \/ default_overwrite Fixtures.dl_keep = true) /\
  Fixtures.net_e "https://a/x.jpg" = Served "body of https://a/x.jpg" /\
  "/out/x.jpg"%string <> ""%string /\
  ends_with_slash "/out/x.jpg" = false /\ isdir (st_fs Fixtures.s_out) "/out/x.jpg" = false /\
  (os_path_dirname "/out/x.jpg" = ""%string \/
   isdir (st_fs Fixtures.s_out) (os_path_dirname "/out/x.jpg") = true) /\
  exists s', download_file Fixtures.net_e Fixtures.dl_keep "https://a/x.jpg" "/out/x.jpg" Fixtures.s_out =
               (Ok tt, s') /\
    fs_lookup (st_fs s') "/out/x.jpg" = Some (File "body of https://a/x.jpg") /\
    (forall k, k <> norm_path "/out/x.jpg" -> st_fs s' !! k = st_fs Fixtures.s_out !! k) /\
    st_out s' = st_out Fixtures.s_out ++
      [("Downloading " ++ py_repr "https://a/x.jpg" ++ " to " ++ py_repr "/out/x.jpg" ++ "...")%string;
       ("done." ++ newline)%string] /\
    st_requests s' = st_requests Fixtures.s_out ++ ["https://a/x.jpg"%string].
Proof.
  assert (H1 : isfile (st_fs Fixtures.s_out) "/out/x.jpg" = false \/
               default_overwrite Fixtures.dl_keep = true) by (left; vm_compute; reflexivity).
  assert (H2 : Fixtures.net_e "https://a/x.jpg" = Served "body of https://a/x.jpg")
    by (vm_compute; reflexivity).
  assert (H6 : "/out/x.jpg"%string <> ""%string) by discriminate.
  assert (H3 : ends_with_slash "/out/x.jpg" = false) by reflexivity.
  assert (H4 : isdir (st_fs Fixtures.s_out) "/out/x.jpg" = false) by (vm_compute; reflexivity).
  assert (H5 : os_path_dirname "/out/x.jpg" = ""%string \/
               isdir (st_fs Fixtures.s_out) (os_path_dirname "/out/x.jpg") = true)
    by (right; vm_compute; reflexivity).
  do 6 (split; [assumption|]).
  exact (download_file_fetches_body Fixtures.net_e Fixtures.dl_keep "https://a/x.jpg" "/out/x.jpg"
           "body of https://a/x.jpg" Fixtures.s_out H1 H2 H6 H3 H4 H5).
Defined.

(** A URL that [urlopen] rejects ([ValueError], not an [IOError]): after the
    notice, the exception leaves [download_file] without ["failed."] being
    printed; nothing is fetched or written. *)
Theorem download_file_unknown_url_type (net : string -> net_outcome) (self : BatchDownloader)
    (u f : string) (s : state) :
  (isfile (st_fs s) f = false \/ default_overwrite self = true) ->
  net u = UnknownUrlType ->
  download_file net self u f s =
  (Exc (ValueError ("unknown url type: " ++ py_repr u)),
   mkState (st_fs s)
     (st_out s ++ [("Downloading " ++ py_repr u ++ " to " ++ py_repr f ++ "...")%string])
     (st_requests s) (st_stdin s)).
Proof.
  intros Hskip Hn.
  assert (Hs : isfile (st_fs s) f && negb (default_overwrite self) = false)
    by (destruct Hskip as [-> | ->]; [reflexivity | apply andb_false_r]).
  unfold download_file, urlretrieve, os_path_isfile. unfold_M.
  rewrite Hs, Hn. reflexivity.
Qed.

Lemma download_file_unknown_url_type_witness :
  (isfile (st_fs Fixtures.s_out) "/out/x.jpg" = false \/ default_overwrite Fixtures.dl_keep = true) /\
  Fixtures.net_rel "x.jpg" = UnknownUrlType /\
  download_file Fixtures.net_rel Fixtures.dl_keep "x.jpg" "/out/x.jpg" Fixtures.s_out =
  (Exc (ValueError ("unknown url type: " ++ py_repr "x.jpg")),
   mkState (st_fs Fixtures.s_out)
     (st_out Fixtures.s_out ++ [("Downloading " ++ py_repr "x.jpg" ++ " to " ++ py_repr "/out/x.jpg" ++ "...")%string])
     (st_requests Fixtures.s_out) (st_stdin Fixtures.s_out)).
Proof.
  assert (H1 : isfile (st_fs Fixtures.s_out) "/out/x.jpg" = false \/
               default_overwrite Fixtures.dl_keep = true) by (left; vm_compute; reflexivity).
  assert (H2 : Fixtures.net_rel "x.jpg" = UnknownUrlType) by (vm_compute; reflexivity).
  split; [exact H1|]. split; [exact H2|].
  exact (download_file_unknown_url_type Fixtures.net_rel Fixtures.dl_keep "x.jpg" "/out/x.jpg"
           Fixtures.s_out H1 H2).
Defined.

(** Two URLs with the same final segment and overwriting on: both are
    fetched, in order, into the same local path, and the second body is what
    the path holds at the end; no other path changes.  The local path is not
    empty (with an empty name [urlretrieve] writes to a temporary file). *)
Theorem download_same_name_last_wins (net : string -> net_outcome) (self : BatchDownloader)
    (u1 u2 b1 b2 : string) (s : state) :
  rsplit_last u2 = rsplit_last u1 ->
  default_overwrite self = true ->
  net u1 = Served b1 -> net u2 = Served b2 ->
  local_filename (download_directory self) u1 <> ""%string ->
  ends_with_slash (local_filename (download_directory self) u1) = false ->
  isdir (st_fs s) (local_filename (download_directory self) u1) = false ->
  (os_path_dirname (local_filename (download_directory self) u1) = ""%string \/
   isdir (st_fs s) (os_path_dirname (local_filename (download_directory self) u1)) = true) ->
  exists s', download net self (PyList [PyStr u1; PyStr u2]) s = (Ok tt, s') /\
    fs_lookup (st_fs s') (local_filename (download_directory self) u1) = Some (File b2) /\
    (forall k, k <> norm_path (local_filename (download_directory self) u1) ->
               st_fs s' !! k = st_fs s !! k) /\
    st_requests s' = st_requests s ++ [u1; u2].
Proof.
  intros Hr Ho H1 H2 Hne He Hd Hp.
  set (f := local_filename (download_directory self) u1) in *.
  assert (Hf2 : local_filename (download_directory self) u2 = f)
    by (unfold f, local_filename; now rewrite Hr).
  set (fs1 := <[norm_path f := File b1]> (st_fs s)).
  assert (Hd1 : isdir fs1 f = false)
    by (unfold fs1, isdir, fs_lookup; rewrite lookup_insert_eq; now destruct (ends_with_slash f)).
  assert (Hp1 : os_path_dirname f = ""%string \/ isdir fs1 (os_path_dirname f) = true)
    by (destruct Hp as [Hp|Hp]; [now left | right; now apply isdir_not_file]).
  change (PyList [PyStr u1; PyStr u2]) with (PyList (map PyStr [u1; u2])).
  rewrite download_list_unfold. cbn [map download_loop]. rewrite Hf2. fold f.
  unfold mbind, M_bind, bind.
  rewrite (download_file_served net self u1 f b1 s (or_intror Ho) H1 Hne He Hd Hp).
  cbv beta iota.
  erewrite download_file_served;
    [| right; exact Ho | exact H2 | exact Hne | exact He | exact Hd1 | exact Hp1].
  eexists. split; [unfold mret, M_ret, ret, print, write_out; reflexivity|].
  cbn [st_fs st_requests].
  split; [now apply fs_lookup_insert_file|].
  split; [intros k Hk; unfold fs1; now rewrite !lookup_insert_ne by congruence|].
  now rewrite <- app_assoc.
Qed.

Lemma download_same_name_last_wins_witness :
  rsplit_last "https://c/x.jpg" = rsplit_last "https://a/x.jpg" /\
  default_overwrite Fixtures.dl_force = true /\
  Fixtures.net_e "https://a/x.jpg" = Served "body of https://a/x.jpg" /\
  Fixtures.net_e "https://c/x.jpg" = Served "body of https://c/x.jpg" /\
  exists s', download Fixtures.net_e Fixtures.dl_force
               (PyList [PyStr "https://a/x.jpg"; PyStr "https://c/x.jpg"]) Fixtures.s_out = (Ok tt, s') /\
    fs_lookup (st_fs s') (local_filename (download_directory Fixtures.dl_force) "https://a/x.jpg") =
      Some (File "body of https://c/x.jpg") /\
    (forall k, k <> norm_path (local_filename (download_directory Fixtures.dl_force) "https://a/x.jpg") ->
               st_fs s' !! k = st_fs Fixtures.s_out !! k) /\
    st_requests s' = st_requests Fixtures.s_out ++ ["https://a/x.jpg"; "https://c/x.jpg"]%string.
Proof.
  assert (H1 : rsplit_last "https://c/x.jpg" = rsplit_last "https://a/x.jpg") by reflexivity.
  assert (H2 : default_overwrite Fixtures.dl_force = true) by reflexivity.
  assert (H3 : Fixtures.net_e "https://a/x.jpg" = Served "body of https://a/x.jpg")
    by (vm_compute; reflexivity).
  assert (H4 : Fixtures.net_e "https://c/x.jpg" = Served "body of https://c/x.jpg")
    by (vm_compute; reflexivity).
  do 4 (split; [assumption|]).
  apply (download_same_name_last_wins Fixtures.net_e Fixtures.dl_force "https://a/x.jpg"
           "https://c/x.jpg" "body of https://a/x.jpg" "body of https://c/x.jpg" Fixtures.s_out
           H1 H2 H3 H4); vm_compute; [discriminate | reflexivity | reflexivity | right; reflexivity].
Defined.

(** Two URLs with the same final segment and overwriting off, on a free
    target: the first is fetched, the second is skipped as existing, so the
    path keeps the first body and only the first URL is requested.  The local
    path is not empty (with an empty name [urlretrieve] writes to a temporary
    file). *)
Theorem download_same_name_first_kept (net : string -> net_outcome) (self : BatchDownloader)
    (u1 u2 b1 : string) (s : state) :
  rsplit_last u2 = rsplit_last u1 ->
  default_overwrite self = false ->
  net u1 = Served b1 ->
  local_filename (download_directory self) u1 <> ""%string ->
  ends_with_slash (local_filename (download_directory self) u1) = false ->
  isfile (st_fs s) (local_filename (download_directory self) u1) = false ->
  isdir (st_fs s) (local_filename (download_directory self) u1) = false ->
  (os_path_dirname (local_filename (download_directory self) u1) = ""%string \/
   isdir (st_fs s) (os_path_dirname (local_filename (download_directory self) u1)) = true) ->
  exists s', download net self (PyList [PyStr u1; PyStr u2]) s = (Ok tt, s') /\
    fs_lookup (st_fs s') (local_filename (download_directory self) u1) = Some (File b1) /\
    (forall k, k <> norm_path (local_filename (download_directory self) u1) ->
               st_fs s' !! k = st_fs s !! k) /\
    st_requests s' = st_requests s ++ [u1].
Proof.
  intros Hr Ho H1 Hne He Hnf Hd Hp.
  set (f := local_filename (download_directory self) u1) in *.
  assert (Hf2 : local_filename (download_directory self) u2 = f)
    by (unfold f, local_filename; now rewrite Hr).
  change (PyList [PyStr u1; PyStr u2]) with (PyList (map PyStr [u1; u2])).
  rewrite download_list_unfold. cbn [map download_loop]. rewrite Hf2. fold f.
  unfold mbind, M_bind, bind.
  rewrite (download_file_served net self u1 f b1 s (or_introl Hnf) H1 Hne He Hd Hp).
  cbv beta iota.
  erewrite download_file_conflict; [| cbn [st_fs]; now apply fs_lookup_insert_file].
  rewrite Ho.
  eexists. split; [unfold mret, M_ret, ret, print, write_out; reflexivity|].
  cbn [st_fs st_requests].
  split; [now apply fs_lookup_insert_file|].
  split; [intros k Hk; now rewrite lookup_insert_ne by congruence|].
  reflexivity.
Qed.

Lemma download_same_name_first_kept_witness :
  rsplit_last "https://c/x.jpg" = rsplit_last "https://a/x.jpg" /\
  default_overwrite Fixtures.dl_keep = false /\
  Fixtures.net_e "https://a/x.jpg" = Served "body of https://a/x.jpg" /\
  exists s', download Fixtures.net_e Fixtures.dl_keep
               (PyList [PyStr "https://a/x.jpg"; PyStr "https://c/x.jpg"]) Fixtures.s_out = (Ok tt, s') /\
    fs_lookup (st_fs s') (local_filename (download_directory Fixtures.dl_keep) "https://a/x.jpg") =
      Some (File "body of https://a/x.jpg") /\
    (forall k, k <> norm_path (local_filename (download_directory Fixtures.dl_keep) "https://a/x.jpg") ->
               st_fs s' !! k = st_fs Fixtures.s_out !! k) /\
    st_requests s' = st_requests Fixtures.s_out ++ ["https://a/x.jpg"%string].
Proof.
  assert (H1 : rsplit_last "https://c/x.jpg" = rsplit_last "https://a/x.jpg") by reflexivity.
  assert (H2 : default_overwrite Fixtures.dl_keep = false) by reflexivity.
  assert (H3 : Fixtures.net_e "https://a/x.jpg" = Served "body of https://a/x.jpg")
    by (vm_compute; reflexivity).
  do 3 (split; [assumption|]).
  apply (download_same_name_first_kept Fixtures.net_e Fixtures.dl_keep "https://a/x.jpg"
           "https://c/x.jpg" "body of https://a/x.jpg" Fixtures.s_out H1 H2 H3);
    vm_compute; [discriminate | reflexivity | reflexivity | reflexivity | right; reflexivity].
Defined.

(* ------------------------------------------------------------------ *)
(** ** Which URLs get requested *)

Lemma download_loop_requests (net : string -> net_outcome) (self : BatchDownloader)
    (urls : pyval) (steps : list step) (s : state) (r : res unit) (s' : state) :
  download_loop net self urls steps s = (r, s') ->
  exists extra, st_requests s' = st_requests s ++ extra /\ extra `sublist_of` step_yields steps.
Proof.
  revert s. induction steps as [|st rest IH]; intros s Hrun.
  - cbn in Hrun. injection Hrun as _ <-. exists []. split; [now rewrite app_nil_r | constructor].
  - destruct st as [t|[| u | l | g]]; cbn [download_loop] in Hrun;
      try (unfold throw in Hrun; injection Hrun as _ <-; exists []; split; [now rewrite app_nil_r | apply sublist_nil_l]).
    + unfold mbind, M_bind, bind, print, write_out in Hrun.
      destruct (IH _ Hrun) as [extra [Hq Hsub]]. cbn [st_requests] in Hq.
      exists extra. split; [exact Hq | exact Hsub].
    + unfold mbind, M_bind, bind in Hrun.
      destruct (download_file net self u _ s) as [[[]|e] s1] eqn:E;
        destruct (download_file_effects _ _ _ _ _ _ _ E) as (_ & _ & _ & Hq1 & _).
      * destruct (IH _ Hrun) as [extra [Hq Hsub]].
        cbn [step_yields flat_map app].
        destruct Hq1 as [Hq1|Hq1].
        -- exists extra. split; [congruence | now apply sublist_cons].
        -- exists (u :: extra). rewrite Hq, Hq1, <- app_assoc.
           split; [reflexivity | now apply sublist_skip].
      * injection Hrun as _ <-. cbn [step_yields flat_map app].
        destruct Hq1 as [Hq1|Hq1].
        -- exists []. split; [now rewrite app_nil_r | apply sublist_nil_l].
        -- exists [u]. split; [exact Hq1 | apply sublist_skip, sublist_nil_l].
Qed.

Lemma step_yields_strs (l : list string) : step_yields (map (fun x => Yield (PyStr x)) l) = l.
Proof. induction l as [|x r IH]; [reflexivity|]. cbn. now f_equal. Qed.

(** [download] over a list of strings requests only URLs of the list, each
    at most as often as it occurs and in list order; an error stops it
    early but never brings in other URLs. *)
Theorem download_requests_sublist (net : string -> net_outcome) (self : BatchDownloader)
    (l : list string) (s : state) (r : res unit) (s' : state) :
  download net self (PyList (map PyStr l)) s = (r, s') ->
  exists extra, st_requests s' = st_requests s ++ extra /\ extra `sublist_of` l.
Proof.
  rewrite download_list_unfold. intros Hrun.
  destruct (download_loop _ _ _ _ s) as [r1 s1] eqn:E.
  destruct (download_loop_requests _ _ _ _ _ _ _ E) as [extra [Hq Hsub]].
  rewrite step_yields_strs in Hsub.
  exists extra. split; [|exact Hsub].
  destruct r1; [unfold print, write_out in Hrun|]; injection Hrun as _ <-; exact Hq.
Qed.

Lemma download_requests_sublist_witness :
  download Fixtures.net_e Fixtures.dl_keep (PyList (map PyStr Fixtures.urls_e)) Fixtures.s_out =
    (Exc (OSError "<urlopen error>"), Fixtures.s_e2) /\
  exists extra, st_requests Fixtures.s_e2 = st_requests Fixtures.s_out ++ extra /\
                extra `sublist_of` Fixtures.urls_e.
Proof.
  assert (H : download Fixtures.net_e Fixtures.dl_keep (PyList (map PyStr Fixtures.urls_e)) Fixtures.s_out =
                (Exc (OSError "<urlopen error>"), Fixtures.s_e2)) by (vm_compute; reflexivity).
  split; [exact H|].
  exact (download_requests_sublist Fixtures.net_e Fixtures.dl_keep Fixtures.urls_e Fixtures.s_out
           _ _ H).
Defined.

Lemma url_gen_yields_in (pattern : string) (lines : list string) (u : string) :
  In u (step_yields (url_gen_steps pattern lines)) ->
  exists l, In l lines /\ u = py_strip l /\ u <> ""%string /\ fnmatch u pattern = true.
Proof.
  induction lines as [|l r IH]; [intros []|].
  unfold url_gen_steps, step_yields in *. cbn [flat_map]. rewrite flat_map_app.
  intros Hin. apply in_app_or in Hin as [Hin|Hin].
  - unfold url_gen_line in Hin.
    destruct (String.eqb (py_strip l) "") eqn:E1; [contradiction|].
    destruct (fnmatch (py_strip l) pattern) eqn:E2; cbn in Hin; [|contradiction].
    destruct Hin as [<-|[]]. exists l. split; [now left|]. split; [reflexivity|].
    split; [now apply String.eqb_neq | exact E2].
  - destruct (IH Hin) as [l' [Hl' Hrest]]. exists l'. split; [now right | exact Hrest].
Qed.

(** When the list file cannot be opened, [main] stops in the generator's
    constructor: after the banner and the error line it raises the
    [OSError], before the downloader exists, so the output directory is not
    created even when [--create] was given, and nothing is fetched. *)
Theorem main_unreadable_list_file (net : string -> net_outcome)
    (validators : option (string -> bool)) (args : cli_args) (s : state) :
  (forall c, fs_lookup (st_fs s) (jpeg_list_file args) <> Some (File c)) ->
  exists msg, main net validators args s =
    (Exc (OSError msg),
     mkState (st_fs s)
       (st_out s ++ map (fun t => t ++ newline)%string
          ["BatchJPEGDownloader, Copyright (c) 2016 Oliver Meister"; "";
           ("Error: " ++ py_repr (jpeg_list_file args) ++ " does not appear to be a valid file.")%string])
       (st_requests s) (st_stdin s)).
Proof.
  intros Hnf. unfold main, ListFileURLGenerator_init, open_read. unfold_M.
  cbn [st_fs st_out st_requests st_stdin].
  destruct (fs_lookup (st_fs s) (jpeg_list_file args)) as [[c|]|] eqn:E;
    [exfalso; exact (Hnf c eq_refl) | |];
    eexists; cbn [is_oserror map st_fs st_out st_requests st_stdin];
    rewrite <- !app_assoc; reflexivity.
Qed.

Lemma main_unreadable_list_file_witness :
  (forall c, fs_lookup (st_fs Fixtures.s_out) (jpeg_list_file Fixtures.args_missing) <> Some (File c)) /\
  create_output_directory Fixtures.args_missing = true /\
  exists msg, main Fixtures.net_e None Fixtures.args_missing Fixtures.s_out =
    (Exc (OSError msg),
     mkState (st_fs Fixtures.s_out)
       (st_out Fixtures.s_out ++ map (fun t => t ++ newline)%string
          ["BatchJPEGDownloader, Copyright (c) 2016 Oliver Meister"; "";
           ("Error: " ++ py_repr (jpeg_list_file Fixtures.args_missing) ++
            " does not appear to be a valid file.")%string])
       (st_requests Fixtures.s_out) (st_stdin Fixtures.s_out)).
Proof.
  assert (H : forall c, fs_lookup (st_fs Fixtures.s_out) (jpeg_list_file Fixtures.args_missing) <>
                        Some (File c)) by (intros c Hc; vm_compute in Hc; discriminate).
  split; [exact H|]. split; [reflexivity|].
  exact (main_unreadable_list_file Fixtures.net_e None Fixtures.args_missing Fixtures.s_out H).
Defined.

(* ------------------------------------------------------------------ *)
(** ** Line handling of [ListFileURLGenerator.__iter__] *)

Lemma fnmatch_star (u : string) : fnmatch u "*" = true.
Proof.
  unfold fnmatch. change (glob_tokens "*") with [GStar].
  induction (list_ascii_of_string u) as [|c l IH]; [reflexivity|].
  cbn. exact IH.
Qed.

(** With the default pattern ["*"] of the constructor, every non-blank
    stripped line is yielded, in order, and no warning is printed. *)
Theorem default_pattern_yields_every_line (lines : list string) :
  url_gen_steps "*" lines =
  map (fun u => Yield (PyStr u)) (List.filter (fun u => negb (String.eqb u "")) (map py_strip lines)).
Proof.
  induction lines as [|l r IH]; [reflexivity|].
  unfold url_gen_steps in *. cbn [flat_map map List.filter]. rewrite IH.
  unfold url_gen_line. rewrite fnmatch_star.
  destruct (String.eqb (py_strip l) ""); reflexivity.
Qed.

Lemma rstrip_idem (s : string) : rstrip (rstrip s) = rstrip s.
Proof.
  induction s as [|c r IH]; [reflexivity|].
  cbn [rstrip]. destruct (rstrip r) as [|a t] eqn:E.
  - destruct (is_py_space c) eqn:Hc; [reflexivity|]. cbn. now rewrite Hc.
  - change (rstrip (String c (String a t))) with
      (match rstrip (String a t) with
       | EmptyString => if is_py_space c then EmptyString else String c EmptyString
       | r' => String c r'
       end).
    now rewrite IH.
Qed.

Lemma rstrip_head (c : ascii) (r : string) :
  rstrip (String c r) = EmptyString \/ exists r', rstrip (String c r) = String c r'.
Proof.
  cbn [rstrip]. destruct (rstrip r); [destruct (is_py_space c)|]; eauto.
Qed.

Lemma lstrip_head (s : string) :
  lstrip s = EmptyString \/ exists c r, lstrip s = String c r /\ is_py_space c = false.
Proof.
  induction s as [|c r IH]; [now left|].
  cbn [lstrip]. destruct (is_py_space c) eqn:Hc; [exact IH | right; eauto].
Qed.

Lemma py_strip_idem (s : string) : py_strip (py_strip s) = py_strip s.
Proof.
  unfold py_strip.
  destruct (lstrip_head s) as [E | (c & r & E & Hc)]; rewrite E; [reflexivity|].
  destruct (rstrip_head c r) as [E2 | [r' E2]]; rewrite E2; [reflexivity|].
  cbn [lstrip]. rewrite Hc. rewrite <- E2. apply rstrip_idem.
Qed.

(** Every URL the generator yields is non-blank, already stripped of
    surrounding whitespace, and matches the pattern. *)
Theorem yielded_urls_are_stripped (pattern : string) (lines : list string) (u : string) :
  In u (step_yields (url_gen_steps pattern lines)) ->
  py_strip u = u /\ u <> ""%string /\ fnmatch u pattern = true.
Proof.
  intros Hin. destruct (url_gen_yields_in _ _ _ Hin) as [l [_ [-> [Hne Hm]]]].
  split; [apply py_strip_idem|]. split; [exact Hne | exact Hm].
Qed.

Lemma yielded_urls_are_stripped_witness :
  In "https://a/x.jpg"%string
     (step_yields (url_gen_steps "*.jpg" (py_lines Fixtures.ok_content))) /\
  py_strip "https://a/x.jpg" = "https://a/x.jpg"%string /\ "https://a/x.jpg"%string <> ""%string /\
  fnmatch "https://a/x.jpg" "*.jpg" = true.
Proof.
  assert (H : In "https://a/x.jpg"%string
                (step_yields (url_gen_steps "*.jpg" (py_lines Fixtures.ok_content))))
    by (vm_compute; left; reflexivity).
  split; [exact H|].
  exact (yielded_urls_are_stripped "*.jpg" (py_lines Fixtures.ok_content) "https://a/x.jpg" H).
Defined.

(* ------------------------------------------------------------------ *)
(** ** Reading the list file line by line *)

Module LazyRead.

Lemma ascii_eqb_true (a b : ascii) : Ascii.eqb a b = true -> a = b.
Proof. apply Ascii.eqb_eq. Qed.

Lemma ends_with_cr_tail (a : ascii) (l : list ascii) :
  l <> [] -> ends_with_cr (a :: l) = ends_with_cr l.
Proof. destruct l; [congruence | reflexivity]. Qed.

Lemma ends_with_cr_nil : ends_with_cr [] = false.
Proof. reflexivity. Qed.

Lemma replace_crlf_app_aux (n : nat) (x y : list ascii) :
  length x <= n ->
  (ends_with_cr x = true -> head y <> Some "010"%char) ->
  replace_crlf (x ++ y) = replace_crlf x ++ replace_crlf y.
Proof.
  revert x. induction n as [|n IH]; intros x Hlen Hxy.
  { destruct x; [reflexivity | cbn in Hlen; lia]. }
  destruct x as [|a [|b x]]; [reflexivity| |].
  - cbn [app]. destruct y as [|b y]; [reflexivity|].
    cbn [replace_crlf].
    destruct (Ascii.eqb a "013") eqn:Ha, (Ascii.eqb b "010") eqn:Hb; cbn [andb]; try reflexivity.
    exfalso. apply ascii_eqb_true in Hb. subst b.
    apply Hxy; [unfold ends_with_cr; cbn; exact Ha | reflexivity].
  - cbn [app]. change (replace_crlf (a :: b :: x ++ y)) with
      (if Ascii.eqb a "013" && Ascii.eqb b "010" then "010"%char :: replace_crlf (x ++ y)
       else a :: replace_crlf (b :: x ++ y)).
    change (replace_crlf (a :: b :: x)) with
      (if Ascii.eqb a "013" && Ascii.eqb b "010" then "010"%char :: replace_crlf x
       else a :: replace_crlf (b :: x)).
    cbn [length] in Hlen.
    rewrite ends_with_cr_tail in Hxy by discriminate.
    destruct (Ascii.eqb a "013" && Ascii.eqb b "010").
    + rewrite (IH x); [reflexivity | lia|].
      destruct x as [|c x]; [rewrite ends_with_cr_nil; discriminate|].
      rewrite ends_with_cr_tail in Hxy by discriminate. exact Hxy.
    + change (b :: x ++ y) with ((b :: x) ++ y).
      rewrite (IH (b :: x)); [reflexivity | cbn [length]; lia | exact Hxy].
Qed.

Lemma translate_newlines_app (x y : list ascii) :
  (ends_with_cr x = true -> head y <> Some "010"%char) ->
  translate_newlines (x ++ y) = translate_newlines x ++ translate_newlines y.
Proof.
  intros H. unfold translate_newlines, replace_cr.
  rewrite (replace_crlf_app_aux (length x)) by (auto || lia). apply map_app.
Qed.

(** A list whose last character is ["\r"]. *)
Lemma ends_with_cr_split (l : list ascii) :
  ends_with_cr l = true -> l = removelast l ++ ["013"%char].
Proof.
  induction l as [|a l IH]; [discriminate|].
  destruct l as [|b l].
  - unfold ends_with_cr. cbn. intros H. apply ascii_eqb_true in H. now subst.
  - rewrite ends_with_cr_tail by discriminate. intros H.
    rewrite (IH H) at 1. reflexivity.
Qed.

(** One [_read_chunk]: the decoded text of the chunk comes first in what
    is still to come, and what remains is the text after the chunk. *)
Lemma newline_decode_chunk (pcr : bool) (r : list ascii) (n : nat) :
  0 < n ->
  tail_text pcr r =
    fst (newline_decode pcr (firstn n r) (match firstn n r with [] => true | _ => false end)) ++
    tail_text (snd (newline_decode pcr (firstn n r) (match firstn n r with [] => true | _ => false end)))
      (skipn n r) /\
  (r = [] -> snd (newline_decode pcr (firstn n r) (match firstn n r with [] => true | _ => false end)) = false).
Proof.
  intros Hn. destruct r as [|a r].
  - rewrite firstn_nil, skipn_nil. split; [|intros _]; destruct pcr; reflexivity.
  - destruct n as [|n]; [lia|]. cbn [firstn skipn].
    split; [|discriminate].
    assert (Hdec : newline_decode pcr (a :: firstn n r) false =
                   if ends_with_cr (pending pcr (a :: firstn n r))
                   then (translate_newlines (removelast (pending pcr (a :: firstn n r))), true)
                   else (translate_newlines (pending pcr (a :: firstn n r)), false))
      by (unfold newline_decode; destruct pcr; cbn [andb orb negb pending]; now rewrite andb_true_r).
    rewrite Hdec. unfold tail_text.
    assert (Hsplit : pending pcr (a :: r) = pending pcr (a :: firstn n r) ++ skipn n r)
      by (destruct pcr; cbn; now rewrite firstn_skipn).
    rewrite Hsplit.
    destruct (ends_with_cr (pending pcr (a :: firstn n r))) eqn:E; cbn [fst snd].
    + rewrite (ends_with_cr_split _ E) at 1. rewrite <- app_assoc. cbn [app pending].
      apply translate_newlines_app.
      intros _. discriminate.
    + apply translate_newlines_app. congruence.
Qed.

Lemma split_line_found (line X : list ascii) (i : nat) :
  find_nl line = Some i ->
  split_line (line ++ X) = (firstn (S i) line, skipn (S i) line ++ X).
Proof.
  revert i. induction line as [|a line IH]; intros i; [discriminate|].
  cbn [find_nl app split_line].
  destruct (Ascii.eqb a "010").
  - intros [= <-]. reflexivity.
  - destruct (find_nl line) as [j|]; [|discriminate]. intros [= <-].
    rewrite (IH j eq_refl). reflexivity.
Qed.

Lemma split_line_none (line X : list ascii) :
  find_nl line = None ->
  split_line (line ++ X) = (line ++ fst (split_line X), snd (split_line X)).
Proof.
  induction line as [|a line IH]; [intros _; cbn [app]; now destruct (split_line X)|].
  cbn [find_nl app split_line].
  destruct (Ascii.eqb a "010"); [discriminate|].
  destruct (find_nl line); [discriminate|]. intros _.
  rewrite (IH eq_refl). reflexivity.
Qed.

Lemma CHUNK_SIZE_pos : 0 < CHUNK_SIZE.
Proof. apply Nat.ltb_lt. vm_compute. reflexivity. Qed.

Lemma skipn_length_firstn {A} (n : nat) (l : list A) : skipn (length (firstn n l)) l = skipn n l.
Proof.
  revert l. induction n as [|n IH]; intros [|a l]; try reflexivity.
  cbn [firstn length skipn]. apply IH.
Qed.

Lemma tail_text_false_nil : tail_text false [] = [].
Proof. reflexivity. Qed.

Lemma tail_text_nil_inv (pcr : bool) : tail_text pcr [] = [] -> pcr = false.
Proof. destruct pcr; [discriminate | reflexivity]. Qed.

(** [readline_go] returns the first line of what is still to come, and
    leaves the rest of it to come. *)
Lemma readline_go_spec (fuel : nat) (c line : list ascii) (pos : nat) (pcr : bool)
    (l : list ascii) (pos' : nat) (buf' : list ascii) (pcr' : bool) :
  2 * length (skipn pos c) + (if pcr then 1 else 0) < fuel ->
  readline_go fuel c line pos pcr = (l, (pos', buf', pcr')) ->
  (l, buf' ++ tail_text pcr' (skipn pos' c)) = split_line (line ++ tail_text pcr (skipn pos c)).
Proof.
  revert line pos pcr. induction fuel as [|fuel IH]; intros line pos pcr Hf Hrun; [lia|].
  cbn [readline_go] in Hrun.
  destruct (find_nl line) as [i|] eqn:Ef.
  { injection Hrun as <- <- <- <-. now rewrite split_line_found with (i := i). }
  pose proof CHUNK_SIZE_pos as Hpos.
  pose proof (newline_decode_chunk pcr (skipn pos c) CHUNK_SIZE Hpos) as [Hdec Heof].
  destruct (newline_decode pcr _ _) as [dec pcr1] eqn:Ed. cbn [fst snd] in Hdec, Heof.
  rewrite Hdec.
  destruct (skipn pos c) as [|a r] eqn:Er.
  - rewrite firstn_nil in Hrun. cbn [length] in Hrun. rewrite Nat.add_0_r in Hrun.
    specialize (Heof eq_refl). subst pcr1. rewrite skipn_nil, tail_text_false_nil, app_nil_r in Hdec |- *.
    destruct dec as [|d dec]; cbn [andb] in Hrun.
    + injection Hrun as <- <- <- <-. rewrite Er, tail_text_false_nil, app_nil_r.
      pose proof (split_line_none line [] Ef) as Hs. rewrite app_nil_r in Hs.
      rewrite ?app_nil_r, Hs. cbn [split_line fst snd]. now rewrite app_nil_r.
    + assert (Hp : pcr = true) by (destruct pcr; [reflexivity | discriminate Hdec]). subst pcr.
      cbn [length] in Hf.
      assert (Hb : 2 * length (skipn pos c) + (if false then 1 else 0) < fuel)
        by (rewrite Er; cbn [length]; lia).
      rewrite (IH _ pos false Hb Hrun), Er, tail_text_false_nil.
      rewrite app_nil_r. reflexivity.
  - destruct CHUNK_SIZE as [|k] eqn:Hk; [lia|]. cbn [firstn] in Hrun. cbv iota in Hrun.
    cbn [andb] in Hrun.
    assert (Hskip : skipn (pos + length (a :: firstn k r)) c = skipn (S k) (a :: r)).
    { rewrite Nat.add_comm, <- skipn_skipn, Er.
      change (a :: firstn k r) with (firstn (S k) (a :: r)). apply skipn_length_firstn. }
    assert (Hlen : length (skipn (S k) (a :: r)) <= length r)
      by (cbn [skipn]; rewrite length_skipn; lia).
    cbn [length] in Hf.
    assert (Hb : 2 * length (skipn (pos + length (a :: firstn k r)) c) + (if pcr1 then 1 else 0) < fuel)
      by (rewrite Hskip; destruct pcr1; lia).
    rewrite (IH _ _ pcr1 Hb Hrun), Hskip.
    now rewrite app_assoc.
Qed.

Lemma readline_spec (rd : text_reader) (body : string) (s : state) :
  fs_lookup (st_fs s) (rd_path rd) = Some (File body) ->
  exists line rd', readline rd s = (Ok (line, rd'), s) /\ rd_path rd' = rd_path rd /\
    (line, reader_text (list_ascii_of_string body) rd') =
      split_line (reader_text (list_ascii_of_string body) rd).
Proof.
  intros Hf. unfold readline, mbind, M_bind, bind, get_fs. cbv beta iota.
  rewrite Hf.
  destruct (readline_go _ _ _ _ _) as [line [[pos buf] pcr]] eqn:Hgo.
  exists line, (mkReader (rd_path rd) pos buf pcr).
  split; [reflexivity|]. split; [reflexivity|].
  unfold reader_text. cbn [rd_decoded rd_pendingcr rd_pos].
  refine (readline_go_spec _ _ _ _ _ _ _ _ _ _ Hgo).
  rewrite length_skipn. destruct (rd_pendingcr rd); lia.
Qed.

Lemma find_nl_app_none (x y : list ascii) :
  find_nl x = None -> find_nl y = None -> find_nl (x ++ y) = None.
Proof.
  induction x as [|a x IH]; [easy|]. cbn [find_nl app].
  destruct (Ascii.eqb a "010"); [discriminate|].
  destruct (find_nl x); [discriminate|]. intros _ Hy. now rewrite (IH eq_refl Hy).
Qed.

Lemma text_lines_aux_split (cur t : list ascii) :
  find_nl cur = None ->
  text_lines_aux cur t =
  match cur ++ t with
  | [] => []
  | _ => fst (split_line (cur ++ t)) :: text_lines_aux [] (snd (split_line (cur ++ t)))
  end.
Proof.
  revert cur. induction t as [|c r IH]; intros cur Hc.
  - cbn [text_lines_aux]. pose proof (split_line_none cur [] Hc) as Hs.
    rewrite app_nil_r in Hs |- *. destruct cur as [|a cur]; [reflexivity|].
    rewrite Hs. cbn [split_line fst snd text_lines_aux]. now rewrite app_nil_r.
  - cbn [text_lines_aux]. destruct (Ascii.eqb c "010") eqn:Ec.
    + rewrite split_line_none by exact Hc. cbn [split_line]. rewrite Ec. cbn [fst snd].
      destruct (cur ++ c :: r) eqn:E; [destruct cur; discriminate | reflexivity].
    + rewrite IH by (apply find_nl_app_none; [exact Hc | cbn [find_nl]; now rewrite Ec]).
      now rewrite <- app_assoc.
Qed.

Lemma text_lines_unfold (t : list ascii) :
  text_lines_aux [] t =
  match t with
  | [] => []
  | _ => fst (split_line t) :: text_lines_aux [] (snd (split_line t))
  end.
Proof. exact (text_lines_aux_split [] t eq_refl). Qed.

Lemma split_line_fst_nonempty (a : ascii) (t : list ascii) : fst (split_line (a :: t)) <> [].
Proof. cbn [split_line]. destruct (Ascii.eqb a "010"); [discriminate|]. now destruct (split_line t). Qed.

(** Newline translation, character by character. *)
Lemma translate_crlf (r : list ascii) :
  translate_newlines ("013"%char :: "010"%char :: r) = "010"%char :: translate_newlines r.
Proof. reflexivity. Qed.

Lemma translate_cr (r : list ascii) :
  head r <> Some "010"%char -> translate_newlines ("013"%char :: r) = "010"%char :: translate_newlines r.
Proof.
  intros Hr. destruct r as [|b r]; [reflexivity|].
  unfold translate_newlines. cbn [replace_crlf].
  destruct (Ascii.eqb b "010") eqn:Eb.
  - apply Ascii.eqb_eq in Eb. subst b. now contradiction Hr.
  - change (Ascii.eqb "013" "013") with true. cbn [andb]. reflexivity.
Qed.

Lemma translate_other (c : ascii) (r : list ascii) :
  c <> "013"%char -> translate_newlines (c :: r) = c :: translate_newlines r.
Proof.
  intros Hc. assert (Ec : Ascii.eqb c "013" = false) by now apply Ascii.eqb_neq.
  unfold translate_newlines. destruct r as [|b r].
  - cbn [replace_crlf]. unfold replace_cr. cbn [map]. now rewrite Ec.
  - cbn [replace_crlf]. rewrite Ec. cbn [andb]. unfold replace_cr. cbn [map]. now rewrite Ec.
Qed.

Lemma py_lines_aux_crlf (cur : string) (r : list ascii) :
  py_lines_aux cur ("013"%char :: "010"%char :: r) = (cur ++ String "010" EmptyString)%string :: py_lines_aux EmptyString r.
Proof. reflexivity. Qed.

Lemma py_lines_aux_cr (cur : string) (r : list ascii) :
  head r <> Some "010"%char ->
  py_lines_aux cur ("013"%char :: r) = (cur ++ String "010" EmptyString)%string :: py_lines_aux EmptyString r.
Proof.
  intros Hr. destruct r as [|b r]; [reflexivity|].
  destruct b as [[] [] [] [] [] [] [] []]; try reflexivity. now contradiction Hr.
Qed.

Lemma py_lines_aux_lf (cur : string) (r : list ascii) :
  py_lines_aux cur ("010"%char :: r) = (cur ++ String "010" EmptyString)%string :: py_lines_aux EmptyString r.
Proof. reflexivity. Qed.

Lemma py_lines_aux_other (cur : string) (c : ascii) (r : list ascii) :
  c <> "013"%char -> c <> "010"%char ->
  py_lines_aux cur (c :: r) = py_lines_aux (cur ++ String c EmptyString)%string r.
Proof.
  intros H1 H2. destruct c as [[] [] [] [] [] [] [] []]; try reflexivity; congruence.
Qed.

Lemma list_ascii_of_string_app (x y : string) :
  list_ascii_of_string (x ++ y) = list_ascii_of_string x ++ list_ascii_of_string y.
Proof. induction x as [|a x IH]; [reflexivity|]. simpl. now rewrite IH. Qed.

Lemma py_lines_aux_text (n : nat) (cur : string) (s : list ascii) :
  length s <= n ->
  map list_ascii_of_string (py_lines_aux cur s) =
  text_lines_aux (list_ascii_of_string cur) (translate_newlines s).
Proof.
  revert cur s. induction n as [|n IH]; intros cur s Hlen.
  { destruct s; [|cbn in Hlen; lia]. now destruct cur. }
  destruct s as [|c r]; [now destruct cur|].
  cbn [length] in Hlen.
  destruct (ascii_dec c "013") as [->|H13].
  - destruct r as [|b r'] eqn:Er.
    + rewrite py_lines_aux_cr, translate_cr by discriminate.
      cbn [map text_lines_aux]. rewrite list_ascii_of_string_app.
      change (Ascii.eqb "010" "010") with true. cbv iota.
      now f_equal.
    + destruct (ascii_dec b "010") as [->|H10].
      * rewrite py_lines_aux_crlf, translate_crlf.
        cbn [map text_lines_aux]. change (Ascii.eqb "010" "010") with true. cbv iota.
        rewrite list_ascii_of_string_app. f_equal.
        apply (IH EmptyString r'). cbn [length] in Hlen. lia.
      * rewrite py_lines_aux_cr, translate_cr by (cbn; congruence).
        cbn [map text_lines_aux]. change (Ascii.eqb "010" "010") with true. cbv iota.
        rewrite list_ascii_of_string_app. f_equal.
        apply (IH EmptyString (b :: r')). cbn [length] in Hlen |- *. lia.
  - destruct (ascii_dec c "010") as [->|H10].
    + rewrite py_lines_aux_lf, translate_other by discriminate.
      cbn [map text_lines_aux]. change (Ascii.eqb "010" "010") with true. cbv iota.
      rewrite list_ascii_of_string_app. f_equal. apply (IH EmptyString r). lia.
    + rewrite py_lines_aux_other by assumption. rewrite translate_other by assumption.
      cbn [text_lines_aux]. rewrite (proj2 (Ascii.eqb_neq c "010") H10).
      rewrite (IH _ r) by lia. now rewrite list_ascii_of_string_app.
Qed.

Lemma py_lines_text (body : string) :
  map list_ascii_of_string (py_lines body) =
  text_lines_aux [] (translate_newlines (list_ascii_of_string body)).
Proof. apply (py_lines_aux_text (length (list_ascii_of_string body))). lia. Qed.

Lemma step_yields_app (x y : list step) : step_yields (x ++ y) = step_yields x ++ step_yields y.
Proof. unfold step_yields. apply flat_map_app. Qed.

(** The downloads of a run write only at the local paths of the URLs it is
    handed. *)
Lemma download_loop_keeps_path (net : string -> net_outcome) (self : BatchDownloader)
    (urls : pyval) (steps : list step) (k : string) (s : state) (r : res unit) (s' : state) :
  (forall u, In u (step_yields steps) -> norm_path (local_filename (download_directory self) u) <> k) ->
  download_loop net self urls steps s = (r, s') -> st_fs s' !! k = st_fs s !! k.
Proof.
  revert s. induction steps as [|st rest IH]; intros s Hy Hrun.
  - cbn in Hrun. now injection Hrun as _ <-.
  - destruct st as [t|[| u | l | g]]; cbn [download_loop] in Hrun;
      try (unfold throw in Hrun; now injection Hrun as _ <-).
    + unfold mbind, M_bind, bind, print, write_out in Hrun.
      rewrite (IH _ Hy Hrun). reflexivity.
    + unfold mbind, M_bind, bind in Hrun.
      assert (Hu : norm_path (local_filename (download_directory self) u) <> k)
        by (apply Hy; now left).
      destruct (download_file net self u _ s) as [[[]|e] s1] eqn:E;
        destruct (download_file_effects _ _ _ _ _ _ _ E) as (_ & Hfs & _).
      * rewrite (IH s1 (fun v Hv => Hy v (or_intror Hv)) Hrun). apply Hfs. congruence.
      * injection Hrun as _ <-. apply Hfs. congruence.
Qed.

Lemma fs_lookup_same (fs fs' : gmap string entry) (p : string) :
  fs' !! norm_path p = fs !! norm_path p -> fs_lookup fs' p = fs_lookup fs p.
Proof. intros H. unfold fs_lookup. now rewrite H. Qed.

(** The lazy loop runs the downloads of the lines still to come, one line
    after the other, as long as none of them writes to the list file. *)
Lemma download_gen_loop_lines (net : string -> net_outcome) (self : BatchDownloader)
    (urls : pyval) (pattern body : string) (L : list (list ascii)) :
  forall (fuel : nat) (rd : text_reader) (s : state),
  fs_lookup (st_fs s) (rd_path rd) = Some (File body) ->
  text_lines_aux [] (reader_text (list_ascii_of_string body) rd) = L ->
  length L < fuel ->
  (forall u, In u (step_yields (flat_map (url_gen_line pattern) (map string_of_list_ascii L))) ->
     norm_path (local_filename (download_directory self) u) <> norm_path (rd_path rd)) ->
  download_gen_loop net fuel self urls pattern rd s =
  match download_loop net self urls (flat_map (url_gen_line pattern) (map string_of_list_ascii L)) s with
  | (Ok _, s') => (Ok true, s')
  | (Exc e, s') => (Exc e, s')
  end.
Proof.
  induction L as [|l L IH]; intros fuel rd s Hf HL Hlen Hy;
    (destruct fuel as [|fuel]; [cbn [length] in Hlen; lia|]);
    cbn [download_gen_loop];
    destruct (readline_spec rd body s Hf) as (line & rd' & Hrl & Hpath & Hsplit);
    unfold mbind at 1, M_bind at 1, bind at 1; rewrite Hrl; cbv beta iota;
    rewrite text_lines_unfold in HL;
    destruct (reader_text (list_ascii_of_string body) rd) as [|a t]; try discriminate.
  - injection Hsplit as -> _. reflexivity.
  - cbv beta iota in HL. rewrite <- Hsplit in HL. cbn [fst snd] in HL.
    injection HL as <- HL.
    pose proof (split_line_fst_nonempty a t) as Hne. rewrite <- Hsplit in Hne. cbn [fst] in Hne.
    destruct line as [|x line]; [congruence|].
    cbn [map flat_map]. rewrite download_loop_app. cbn [map flat_map] in Hy.
    rewrite step_yields_app in Hy.
    unfold mbind at 1, M_bind at 1, bind at 1.
    destruct (download_loop net self urls (url_gen_line pattern _) s) as [[[]|e] s1] eqn:E;
      [|reflexivity].
    apply IH.
    + rewrite Hpath. rewrite <- Hf. apply fs_lookup_same.
      refine (download_loop_keeps_path _ _ _ _ _ _ _ _ _ E).
      intros u Hu. apply Hy. apply in_or_app. now left.
    + exact HL.
    + cbn [length] in Hlen. lia.
    + intros u Hu. rewrite Hpath. apply Hy. apply in_or_app. now right.
Qed.

Lemma map_string_of_list_ascii_of_string (l : list string) :
  map string_of_list_ascii (map list_ascii_of_string l) = l.
Proof.
  rewrite map_map. induction l as [|x l IH]; [reflexivity|].
  cbn [map]. now rewrite string_of_list_ascii_of_string, IH.
Qed.

End LazyRead.

(** [download] reads the list file whole when its loop starts;
    [download_lazy] reads it a line at a time, as [__iter__] does.  The two
    runs are the same when the list file is readable and no URL of it is
    downloaded onto the list file itself. *)
Theorem download_lazy_agrees (net : string -> net_outcome) (fuel : nat)
    (self : BatchDownloader) (g : ListFileURLGenerator) (body : string) (s : state) :
  fs_lookup (st_fs s) (gen_filename g) = Some (File body) ->
  (forall u, In u (step_yields (url_gen_steps (gen_pattern g) (py_lines body))) ->
     norm_path (local_filename (download_directory self) u) <> norm_path (gen_filename g)) ->
  length (py_lines body) < fuel ->
  download_lazy net fuel self (PyGen g) s = download net self (PyGen g) s.
Proof.
  intros Hf Hy Hlen.
  unfold download_lazy, download. cbn [py_iterable negb].
  unfold for_steps, open_text, open_read.
  unfold mbind, M_bind, bind, get_fs. cbv beta iota.
  rewrite Hf. unfold mret, M_ret, ret. cbv beta iota.
  rewrite (LazyRead.download_gen_loop_lines net self (PyGen g) (gen_pattern g) body
             (map list_ascii_of_string (py_lines body))).
  - rewrite LazyRead.map_string_of_list_ascii_of_string.
    destruct (download_loop _ _ _ _ s) as [[[]|e] s1]; reflexivity.
  - exact Hf.
  - rewrite LazyRead.py_lines_text. reflexivity.
  - now rewrite length_map.
  - rewrite LazyRead.map_string_of_list_ascii_of_string. exact Hy.
Qed.

Lemma download_lazy_agrees_witness :
  fs_lookup (st_fs Fixtures.s_list) (gen_filename Fixtures.gen_list) = Some (File Fixtures.list_content) /\
  download_lazy Fixtures.net_e 10 Fixtures.dl_keep (PyGen Fixtures.gen_list) Fixtures.s_list =
  download Fixtures.net_e Fixtures.dl_keep (PyGen Fixtures.gen_list) Fixtures.s_list.
Proof.
  assert (Hf : fs_lookup (st_fs Fixtures.s_list) (gen_filename Fixtures.gen_list) =
               Some (File Fixtures.list_content)) by (vm_compute; reflexivity).
  split; [exact Hf|].
  apply (download_lazy_agrees Fixtures.net_e 10 Fixtures.dl_keep Fixtures.gen_list
           Fixtures.list_content Fixtures.s_list Hf).
  - intros u Hu. vm_compute in Hu.
    destruct Hu as [<-|[<-|[]]]; apply String.eqb_neq; vm_compute; reflexivity.
  - apply Nat.ltb_lt. vm_compute. reflexivity.
Defined.

(** When a download writes to the list file, the two reads differ.  With
    [-o /out -f] and the list file [/out/x.jpg], whose one line is
    [https://a/x.jpg]: that URL is fetched onto the list file itself and
    serves a list of two URLs.  Read whole at the start, the list has one
    URL; read line by line, the loop goes on past the old end of the file
    and also fetches [https://b/y.jpg].  Both runs end with ["Done."]. *)
Lemma lazy_read_follows_rewritten_list :
  fst (download Fixtures.net_list Fixtures.dl_force (PyGen Fixtures.gen_in_out) Fixtures.s_in_out) = Ok tt /\
  st_requests (snd (download Fixtures.net_list Fixtures.dl_force (PyGen Fixtures.gen_in_out)
                      Fixtures.s_in_out)) = ["https://a/x.jpg"%string] /\
  fst (download_lazy Fixtures.net_list 10 Fixtures.dl_force (PyGen Fixtures.gen_in_out) Fixtures.s_in_out) = Ok tt /\
  st_requests (snd (download_lazy Fixtures.net_list 10 Fixtures.dl_force (PyGen Fixtures.gen_in_out)
                      Fixtures.s_in_out)) = ["https://a/x.jpg"%string; "https://b/y.jpg"%string] /\
  last (st_out (snd (download_lazy Fixtures.net_list 10 Fixtures.dl_force (PyGen Fixtures.gen_in_out)
                       Fixtures.s_in_out))) = Some ("Done." ++ newline)%string.
Proof. repeat split; vm_compute; reflexivity. Qed.
